(** * chr4/migrate: the postgres driver and the migration entry points

    A shallow embedding of [driver/postgres/postgres.go] and
    [migrate/migrate.go].  Go functions become Rocq functions over an explicit
    [World]; calls into [database/sql], [driver] and [file] are taken from an
    environment record [Env], so every theorem holds for every backend
    behaviour.  A Go [error] value is [option error] ([None] is [nil]); a
    function that may panic returns an [Outcome]. *)

From Stdlib Require Import String Ascii List ZArith NArith Lia Bool.
From Stdlib Require Import DecimalString.
Import ListNotations.
Open Scope string_scope.

(** ** Go values *)

Module pq.
(** The fields of [pq.Error] that [Driver.Migrate] reads. *)
Record Error := mkError {
  Severity : string;
  Code : string;
  Message : string;
  Position : string
}.
End pq.

(** A non-nil Go [error]: its dynamic type is either [*pq.Error] or anything
    else (an [errors.New] value, a network error, ...), of which only the
    text matters. *)
Inductive error :=
| PqError (e : pq.Error)
| ErrorString (s : string).

Inductive Panic :=
| TypeAssertionFailed   (* interface conversion: error is not *pq.Error *)
| NilDereference.       (* invalid memory address or nil pointer dereference *)

Inductive Outcome (A : Type) :=
| Returned (a : A)
| Panicked (p : Panic).
Arguments Returned {A} a.
Arguments Panicked {A} p.

Definition newline : string := String (ascii_of_nat 10) EmptyString.

Module strconv.
Definition is_digit (c : ascii) : bool :=
  let n := nat_of_ascii c in (48 <=? n)%nat && (n <=? 57)%nat.

Fixpoint digits (s : string) (acc : Z) : option Z :=
  match s with
  | EmptyString => Some acc
  | String c s' =>
      if is_digit c
      then digits s' (10 * acc + (Z.of_nat (nat_of_ascii c) - 48))%Z
      else None
  end.

Definition unsigned (s : string) : option Z :=
  match s with
  | EmptyString => None
  | _ => digits s 0
  end.

(** [strconv.Atoi]: an optional sign, then one or more decimal digits; the
    value has to fit Go's 64-bit [int].  [None] is a non-nil error. *)
Definition Atoi (s : string) : option Z :=
  let signed :=
    match s with
    | String "-"%char s' => option_map Z.opp (unsigned s')
    | String "+"%char s' => unsigned s'
    | _ => unsigned s
    end in
  match signed with
  | Some n =>
      if ((- 2 ^ 63 <=? n) && (n <? 2 ^ 63))%Z then Some n else None
  | None => None
  end.

(** How [fmt] prints an [int] under [%v]. *)
Definition Itoa (n : Z) : string := NilZero.string_of_int (Z.to_int n).

(** [strconv.FormatUint(n, 10)] *)
Definition FormatUint (n : N) : string := NilZero.string_of_uint (N.to_uint n).
End strconv.

Module strings.
(** [strings.Repeat] *)
Fixpoint Repeat (s : string) (count : nat) : string :=
  match count with
  | O => EmptyString
  | S n => s ++ Repeat s n
  end.

(** [strings.Replace(s, old, new, -1)] for an [old] of one character, which
    is how [Create] calls it: every occurrence is replaced. *)
Fixpoint Replace (s : string) (old : ascii) (new : string) : string :=
  match s with
  | EmptyString => EmptyString
  | String c rest =>
      if Ascii.eqb c old
      then new ++ Replace rest old new
      else String c (Replace rest old new)
  end.
End strings.

Module direction.
(** Modelled from the spec: the package [migrate/direction] is not among the
    sources; the data model gives a record's direction as one of
    [{Up, Down}]. *)
Inductive Direction := Up | Down.
End direction.

Module file.
(** [file.File], with the fields the test and the driver use. *)
Record File := mkFile {
  Path : string;
  FileName : string;
  Version : N;
  Name : string;
  Content : string;
  Direction : direction.Direction
}.

Definition is_up (f : File) : bool :=
  match Direction f with direction.Up => true | direction.Down => false end.

Definition is_down (f : File) : bool := negb (is_up f).

(** Modelled from the spec: [file.MigrationFiles] is not among the sources;
    the Migration Collection is a sequence of records in ascending order of
    version. *)
Definition MigrationFiles : Type := list File.

(** Modelled from the spec: [MigrationFiles.ToLastFrom] is not among the
    sources; [ToLatest] is all Up records with a version strictly greater
    than the current one, ascending, and never an error. *)
Definition ToLastFrom (mf : MigrationFiles) (version : N)
  : list File * option error :=
  (filter (fun f => is_up f && (version <? Version f)%N) mf, None).

(** Modelled from the spec: [MigrationFiles.ToFirstFrom] is not among the
    sources; [ToZero] is all Down records with a version less than or equal
    to the current one, most recent first, and never an error. *)
Definition ToFirstFrom (mf : MigrationFiles) (version : N)
  : list File * option error :=
  (rev (filter (fun f => is_down f && (Version f <=? version)%N) mf), None).

(** Modelled from the spec: [MigrationFiles.From] is not among the sources;
    [ByRelativeCount] is the next [n] Up records for [n > 0], the last [|n|]
    Down records for [n < 0], all that exist when there are fewer (not an
    error), and the empty sequence for [n = 0]. *)
Definition From (mf : MigrationFiles) (version : N) (relativeN : Z)
  : list File * option error :=
  if (0 <? relativeN)%Z
  then (firstn (Z.to_nat relativeN) (fst (ToLastFrom mf version)), None)
  else if (relativeN <? 0)%Z
  then (firstn (Z.to_nat (- relativeN)) (fst (ToFirstFrom mf version)), None)
  else ([], None).

Fixpoint lineColumn (data : string) (offset : nat) (line column : Z)
  : Z * Z :=
  match offset, data with
  | S n, String c rest =>
      if Ascii.eqb c (ascii_of_nat 10)
      then lineColumn rest n (line + 1)%Z 1%Z
      else lineColumn rest n line (column + 1)%Z
  | _, _ => (line, column)
  end.

(** Modelled from the spec: [file.LineColumnFromOffset] is not among the
    sources; the offset is turned into a 1-based line number and column by
    counting characters. *)
Definition LineColumnFromOffset (data : string) (offset : Z) : Z * Z :=
  lineColumn data (Z.to_nat offset) 1%Z 1%Z.

Fixpoint splitLines (data : string) (current : string) : list string :=
  match data with
  | EmptyString => [current]
  | String c rest =>
      if Ascii.eqb c (ascii_of_nat 10)
      then current :: splitLines rest EmptyString
      else splitLines rest (current ++ String c EmptyString)
  end.

(** Modelled from the spec: [file.LinesBeforeAndAfter] is not among the
    sources; it is the window of [before] lines before and [after] lines
    after line [line] of the script text.  The spec does not say what the
    last argument changes, so the window is returned as it stands. *)
Definition LinesBeforeAndAfter (data : string) (line before after : Z)
           (lineNumbers : bool) : string :=
  let first := Z.max 1 (line - before) in
  let last := (line + after)%Z in
  let window :=
    firstn (Z.to_nat (last - first + 1))
           (skipn (Z.to_nat (first - 1)) (splitLines data EmptyString)) in
  String.concat (String (ascii_of_nat 10) EmptyString) window.
End file.

(** ** The database as [database/sql] shows it *)

Module sql.
(** What the program did to the connection, oldest event first.  The
    results that the Go code throws away are kept here, where the caller
    cannot see them. *)
Inductive Event :=
| TxBegin
| TxExec (query : string) (args : list N)
| TxCommit (err : option error)
| TxRollback (err : option error)
| DbClose (err : option error).

Inductive ExecResult (Store : Type) :=
| ExecOk (s : Store)
| ExecErr (err : error).
Arguments ExecOk {Store} s.
Arguments ExecErr {Store} err.

(** [Row.Scan] into a [uint64]. *)
Inductive ScanResult :=
| ErrNoRows
| ScanErr (err : error)
| ScanOk (version : N).

(** [committed] is what every connection other than an open transaction
    sees; the working copy of a transaction lives in the [tx] handle. *)
Record World (Store : Type) := mkWorld {
  committed : Store;
  log : list Event
}.
Arguments mkWorld {Store}.
Arguments committed {Store}.
Arguments log {Store}.

Definition emit {Store} (ev : Event) (w : World Store) : World Store :=
  mkWorld (committed w) (log w ++ [ev]).

Definition commit {Store} (tx : Store) (w : World Store) : World Store :=
  mkWorld tx (log w).

Definition is_release (ev : Event) : bool :=
  match ev with
  | TxCommit _ | TxRollback _ => true
  | _ => false
  end.

Definition is_begin (ev : Event) : bool :=
  match ev with
  | TxBegin => true
  | _ => false
  end.

(** Transactions begun and not yet committed or rolled back. *)
Definition open_transactions (l : list Event) : Z :=
  (Z.of_nat (length (filter is_begin l))
   - Z.of_nat (length (filter is_release l)))%Z.
End sql.
Import sql.

(** ** The environment

    Everything the two source files call and do not define: the database
    behind [database/sql], [driver.New], and the [file] package.  [Store] is
    the state of the database, [MigrationFiles] the type
    [file.MigrationFiles]. *)
Record Env (Store MigrationFiles : Type) := mkEnv {
  (* database/sql *)
  db_Begin : Store -> option error;
  tx_Exec : string -> list N -> Store -> ExecResult Store;
  tx_Commit : Store -> option error;
  tx_Rollback : Store -> option error;
  db_Close : Store -> option error;
  db_QueryRow_Scan : string -> Store -> ScanResult;
  (* driver.New: a nil error means the driver was found and initialized *)
  driver_New : string -> Store -> option error * Store;
  (* package file *)
  ReadContent : file.File -> file.File * option error;
  LineColumnFromOffset : string -> Z -> Z * Z;
  LinesBeforeAndAfter : string -> Z -> Z -> Z -> bool -> string;
  FilenameRegex : string -> string;
  ReadMigrationFiles : string -> string -> MigrationFiles * option error;
  ToLastFrom : MigrationFiles -> N -> list file.File * option error;
  ToFirstFrom : MigrationFiles -> N -> list file.File * option error;
  From : MigrationFiles -> N -> Z -> list file.File * option error
}.
Arguments db_Begin {Store MigrationFiles}.
Arguments tx_Exec {Store MigrationFiles}.
Arguments tx_Commit {Store MigrationFiles}.
Arguments tx_Rollback {Store MigrationFiles}.
Arguments db_Close {Store MigrationFiles}.
Arguments db_QueryRow_Scan {Store MigrationFiles}.
Arguments driver_New {Store MigrationFiles}.
Arguments ReadContent {Store MigrationFiles}.
Arguments LineColumnFromOffset {Store MigrationFiles}.
Arguments LinesBeforeAndAfter {Store MigrationFiles}.
Arguments FilenameRegex {Store MigrationFiles}.
Arguments ReadMigrationFiles {Store MigrationFiles}.
Arguments ToLastFrom {Store MigrationFiles}.
Arguments ToFirstFrom {Store MigrationFiles}.
Arguments From {Store MigrationFiles}.

(** ** driver/postgres/postgres.go *)

Module postgres.
Section Driver.
Context {Store MigrationFiles : Type} (E : Env Store MigrationFiles).

(** [type Driver struct { db *sql.DB }]: the handle names the database of
    the world. *)
Inductive Driver : Set := mkDriver.

Definition tableName : string := "schema_migrations".

Definition insertSQL : string :=
  "INSERT INTO " ++ tableName ++ " (version) VALUES ($1)".
Definition deleteSQL : string :=
  "DELETE FROM " ++ tableName ++ " WHERE version=$1".
Definition versionSQL : string :=
  "SELECT version FROM " ++ tableName ++ " ORDER BY version DESC LIMIT 1".

Definition Close (d : Driver) (w : World Store)
  : option error * World Store :=
  let err := db_Close E (committed w) in
  (err, emit (DbClose err) w).

Definition FilenameExtension (d : Driver) : string := "sql".

(** The statement that updates the version table for [f]. *)
Definition markerSQL (f : file.File) : string :=
  match file.Direction f with
  | direction.Up => insertSQL
  | direction.Down => deleteSQL
  end.

(** [fmt.Sprintf("%s %v: %s", Severity, Code, Message)] *)
Definition plainMessage (pqErr : pq.Error) : string :=
  pq.Severity pqErr ++ " " ++ pq.Code pqErr ++ ": " ++ pq.Message pqErr.

(** [fmt.Sprintf("%s %v: %s in line %v, column %v:\n\n%s", ...)] *)
Definition positionMessage (pqErr : pq.Error) (lineNo columnNo : Z)
           (errorPart : string) : string :=
  pq.Severity pqErr ++ " " ++ pq.Code pqErr ++ ": " ++ pq.Message pqErr
    ++ " in line " ++ strconv.Itoa lineNo
    ++ ", column " ++ strconv.Itoa columnNo ++ ":"
    ++ newline ++ newline ++ errorPart.

(** Lines 82-90 of [Migrate]: the error built from a [*pq.Error]. *)
Definition decodeError (pqErr : pq.Error) (content : string) : error :=
  match strconv.Atoi (pq.Position pqErr) with
  | Some offset =>
      if (0 <=? offset)%Z then
        let '(lineNo, columnNo) :=
          LineColumnFromOffset E content (offset - 1) in
        let errorPart := LinesBeforeAndAfter E content lineNo 5 5 true in
        ErrorString (positionMessage pqErr lineNo columnNo errorPart)
      else ErrorString (plainMessage pqErr)
  | None => ErrorString (plainMessage pqErr)
  end.

Definition Migrate (d : Driver) (f : file.File) (w : World Store)
  : Outcome (option error) * World Store :=
  match db_Begin E (committed w) with
  | Some err => (Returned (Some err), w)
  | None =>
      let w := emit TxBegin w in
      let tx := committed w in
      let w := emit (TxExec (markerSQL f) [file.Version f]) w in
      match tx_Exec E (markerSQL f) [file.Version f] tx with
      | ExecErr err =>
          let w := emit (TxRollback (tx_Rollback E tx)) w in
          (Returned (Some err), w)
      | ExecOk tx =>
          match ReadContent E f with
          | (_, Some err) => (Returned (Some err), w)
          | (f, None) =>
              let w := emit (TxExec (file.Content f) []) w in
              match tx_Exec E (file.Content f) [] tx with
              | ExecErr (ErrorString _) =>
                  (Panicked TypeAssertionFailed, w)
              | ExecErr (PqError pqErr) =>
                  let err := decodeError pqErr (file.Content f) in
                  let w := emit (TxRollback (tx_Rollback E tx)) w in
                  (Returned (Some err), w)
              | ExecOk tx =>
                  let err := tx_Commit E tx in
                  let w := emit (TxCommit err) w in
                  match err with
                  | Some _ => (Returned err, w)
                  | None => (Returned None, commit tx w)
                  end
              end
          end
      end
  end.

Definition Version (d : Driver) (w : World Store) : N * option error :=
  match db_QueryRow_Scan E versionSQL (committed w) with
  | ErrNoRows => (0%N, None)
  | ScanErr err => (0%N, Some err)
  | ScanOk version => (version, None)
  end.
End Driver.
End postgres.

Module MigrationFile.
(** [file.MigrationFile], with the fields [Create] sets. *)
Record t := mk {
  Version : N;
  UpFile : file.File;
  DownFile : file.File
}.
End MigrationFile.

(** What [Create] needs beyond [Env]: the [Version] fields of the elements
    of a [file.MigrationFiles] slice, in the order of the slice, and the
    file system behind [path.Join] and [ioutil.WriteFile]. *)
Record CreateEnv (Disk MigrationFiles : Type) := mkCreateEnv {
  versionsOf : MigrationFiles -> list N;
  path_Join : string -> string -> string;
  ioutil_WriteFile : string -> string -> Disk -> option error * Disk
}.
Arguments versionsOf {Disk MigrationFiles}.
Arguments path_Join {Disk MigrationFiles}.
Arguments ioutil_WriteFile {Disk MigrationFiles}.

(** ** migrate/migrate.go *)

Module migrate.
Section Operations.
Context {Store MigrationFiles : Type} (E : Env Store MigrationFiles).

Definition InitResult : Type :=
  option postgres.Driver * option MigrationFiles * N * option error.

(** [d.Close()] with its result thrown away. *)
Definition closeDiscard (d : postgres.Driver) (w : World Store)
  : World Store :=
  snd (postgres.Close E d w).

Definition initDriverAndReadMigrationFilesAndGetVersion
           (url migrationsPath : string) (w : World Store)
  : InitResult * World Store :=
  match driver_New E url (committed w) with
  | (Some err, s) => ((None, None, 0%N, Some err), commit s w)
  | (None, s) =>
      let w := commit s w in
      let d := postgres.mkDriver in
      match ReadMigrationFiles E migrationsPath
              (FilenameRegex E (postgres.FilenameExtension d)) with
      | (_, Some err) =>
          ((None, None, 0%N, Some err), closeDiscard d w)
      | (files, None) =>
          match postgres.Version E d w with
          | (_, Some err) =>
              ((None, None, 0%N, Some err), closeDiscard d w)
          | (version, None) => ((Some d, Some files, version, None), w)
          end
      end
  end.

(** [for _, f := range files { err = d.Migrate(f); if err != nil { ... } }]:
    the loop of [Up], [Down] and [Migrate].  Leaving it by [return] or by
    [break] gives the same result, the error of the record that failed. *)
Fixpoint applyEach (d : postgres.Driver) (files : list file.File)
         (w : World Store) : Outcome (option error) * World Store :=
  match files with
  | [] => (Returned None, w)
  | f :: rest =>
      match postgres.Migrate E d f w with
      | (Returned None, w) => applyEach d rest w
      | (Returned (Some err), w) => (Returned (Some err), w)
      | (Panicked p, w) => (Panicked p, w)
      end
  end.

(** A function body that runs under [defer d.Close()]: the deferred call
    runs when the body returns and when it panics, and its result is
    dropped. *)
Definition deferClose {A} (d : postgres.Driver)
           (body : Outcome A * World Store) : Outcome A * World Store :=
  let '(out, w) := body in (out, closeDiscard d w).

Definition Up (url migrationsPath : string) (w : World Store)
  : Outcome (option error) * World Store :=
  let '((d, files, version, err), w) :=
    initDriverAndReadMigrationFilesAndGetVersion url migrationsPath w in
  match d with
  | None => (Panicked NilDereference, w)
  | Some d =>
      deferClose d
        match err, files with
        | Some _, _ => (Returned err, w)
        | None, None => (Panicked NilDereference, w)
        | None, Some files =>
            let '(applyMigrationFiles, _) := ToLastFrom E files version in
            applyEach d applyMigrationFiles w
        end
  end.

Definition Down (url migrationsPath : string) (w : World Store)
  : Outcome (option error) * World Store :=
  let '((d, files, version, err), w) :=
    initDriverAndReadMigrationFilesAndGetVersion url migrationsPath w in
  match err, d, files with
  | Some _, _, _ => (Returned err, w)
  | None, Some d, Some files =>
      let '(applyMigrationFiles, _) := ToFirstFrom E files version in
      applyEach d applyMigrationFiles w
  | None, _, _ => (Panicked NilDereference, w)
  end.

Definition Migrate (url migrationsPath : string) (relativeN : Z)
           (w : World Store) : Outcome (option error) * World Store :=
  let '((d, files, version, err), w) :=
    initDriverAndReadMigrationFilesAndGetVersion url migrationsPath w in
  match d with
  | None => (Panicked NilDereference, w)
  | Some d =>
      deferClose d
        match err, files with
        | Some _, _ => (Returned err, w)
        | None, None => (Panicked NilDereference, w)
        | None, Some files =>
            match From E files version relativeN with
            | (_, Some err) => (Returned (Some err), w)
            | (applyMigrationFiles, None) =>
                if negb (length applyMigrationFiles =? 0)%nat
                   && negb (relativeN =? 0)%Z
                then applyEach d applyMigrationFiles w
                else (Returned None, w)
            end
        end
  end.

Definition Redo (url migrationsPath : string) (w : World Store)
  : Outcome (option error) * World Store :=
  match Migrate url migrationsPath (-1) w with
  | (Returned None, w) => Migrate url migrationsPath 1 w
  | (Returned (Some err), w) => (Returned (Some err), w)
  | (Panicked p, w) => (Panicked p, w)
  end.

Definition Reset (url migrationsPath : string) (w : World Store)
  : Outcome (option error) * World Store :=
  match Down url migrationsPath w with
  | (Returned None, w) => Up url migrationsPath w
  | (Returned (Some err), w) => (Returned (Some err), w)
  | (Panicked p, w) => (Panicked p, w)
  end.

Definition Version (url migrationsPath : string) (w : World Store)
  : (N * option error) * World Store :=
  match driver_New E url (committed w) with
  | (Some err, s) => ((0%N, Some err), commit s w)
  | (None, s) =>
      let w := commit s w in
      (postgres.Version E postgres.mkDriver w, w)
  end.
End Operations.

(** *** Interrupt handling

    The package variable [interrupts] and the channels registered with
    [signal.Notify].  No operation above reads either of them. *)
Record Interrupts := mkInterrupts {
  interrupts : bool;
  notified : nat          (* channels registered for os.Interrupt *)
}.

Definition initial : Interrupts := mkInterrupts true 0.

Definition Graceful (i : Interrupts) : Interrupts :=
  mkInterrupts true (notified i).

Definition NonGraceful (i : Interrupts) : Interrupts :=
  mkInterrupts false (notified i).

(** Returns whether a channel was made, [false] standing for [nil]. *)
Definition handleInterrupts (i : Interrupts) : bool * Interrupts :=
  if interrupts i
  then (true, mkInterrupts (interrupts i) (S (notified i)))
  else (false, i).

(** *** [Create] *)

Section Creation.
Context {Store MigrationFiles Disk : Type}
        (E : Env Store MigrationFiles) (C : CreateEnv Disk MigrationFiles).

(** [version := uint64(0); if len(files) > 0 { version = lastFile.Version };
    version += 1], in 64-bit unsigned arithmetic. *)
Definition nextVersion (files : MigrationFiles) : N :=
  let version := last (versionsOf C files) 0%N in
  ((version + 1) mod 2 ^ 64)%N.

(** The version in decimal, padded with zeros on the left to a multiple of
    [length = 4] characters. *)
Definition versionString (version : N) : string :=
  let versionStr := strconv.FormatUint version in
  let length := 4%nat in
  if negb ((String.length versionStr mod length) =? 0)%nat
  then strings.Repeat "0" (length - String.length versionStr mod length)
       ++ versionStr
  else versionStr.

(** [fmt.Sprintf("%s_%s.%s.%s", versionStr, name, direction, extension)] *)
Definition filenamef (versionStr name dir extension : string) : string :=
  versionStr ++ "_" ++ name ++ "." ++ dir ++ "." ++ extension.

Definition Create (url migrationsPath name : string)
           (w : World Store) (disk : Disk)
  : (option MigrationFile.t * option error) * (World Store * Disk) :=
  match driver_New E url (committed w) with
  | (Some err, s) => ((None, Some err), (commit s w, disk))
  | (None, s) =>
      let w := commit s w in
      let d := postgres.mkDriver in
      match ReadMigrationFiles E migrationsPath
              (FilenameRegex E (postgres.FilenameExtension d)) with
      | (_, Some err) => ((None, Some err), (w, disk))
      | (files, None) =>
          let version := nextVersion files in
          let versionStr := versionString version in
          let name := strings.Replace name " " "_" in
          let mfile :=
            MigrationFile.mk version
              (file.mkFile migrationsPath
                 (filenamef versionStr name "up"
                            (postgres.FilenameExtension d))
                 0%N name EmptyString direction.Up)
              (file.mkFile migrationsPath
                 (filenamef versionStr name "down"
                            (postgres.FilenameExtension d))
                 0%N name EmptyString direction.Down) in
          let up := MigrationFile.UpFile mfile in
          let down := MigrationFile.DownFile mfile in
          match ioutil_WriteFile C
                  (path_Join C (file.Path up) (file.FileName up))
                  (file.Content up) disk with
          | (Some err, disk) => ((None, Some err), (w, disk))
          | (None, disk) =>
              match ioutil_WriteFile C
                      (path_Join C (file.Path down) (file.FileName down))
                      (file.Content down) disk with
              | (Some err, disk) => ((None, Some err), (w, disk))
              | (None, disk) => ((Some mfile, None), (w, disk))
              end
          end
      end
  end.
End Creation.
End migrate.

(** ** A small database for the examples

    A concrete [Env]: the version table is a list of versions, the schema is
    the list of scripts run so far; the server rejects the scripts listed in
    [script_errors].  It follows the three files of [postgres_test.go]. *)

Module testdb.
Record Store := mkStore {
  versions : list N;
  schema : list string
}.

Record Faults := mkFaults {
  script_errors : list (string * error);
  rollback_error : option error;
  disk : list (string * string)
}.

Fixpoint lookup {A} (k : string) (l : list (string * A)) : option A :=
  match l with
  | [] => None
  | (k', v) :: l' => if (k =? k')%string then Some v else lookup k l'
  end.

Definition duplicate_key : pq.Error :=
  pq.mkError "ERROR" "23505"
    "duplicate key value violates unique constraint" EmptyString.

Definition exec (fl : Faults) (query : string) (args : list N) (s : Store)
  : ExecResult Store :=
  if (query =? postgres.insertSQL)%string then
    match args with
    | [v] =>
        if existsb (N.eqb v) (versions s)
        then ExecErr (PqError duplicate_key)
        else ExecOk (mkStore (v :: versions s) (schema s))
    | _ => ExecErr (ErrorString "pq: wrong number of parameters")
    end
  else if (query =? postgres.deleteSQL)%string then
    match args with
    | [v] =>
        ExecOk (mkStore (filter (fun x => negb (N.eqb x v)) (versions s))
                        (schema s))
    | _ => ExecErr (ErrorString "pq: wrong number of parameters")
    end
  else
    match lookup query (script_errors fl) with
    | Some err => ExecErr err
    | None => ExecOk (mkStore (versions s) (schema s ++ [query]))
    end.

Definition queryRowScan (query : string) (s : Store) : ScanResult :=
  match versions s with
  | [] => ErrNoRows
  | v :: vs => ScanOk (fold_left N.max vs v)
  end.

Definition new (url : string) (s : Store) : option error * Store :=
  if prefix "postgres://" url
  then (None, s)
  else (Some (ErrorString "driver not found"), s).

Definition readContent (fl : Faults) (f : file.File)
  : file.File * option error :=
  if (String.length (file.Content f) =? 0)%nat then
    match lookup (file.FileName f) (disk fl) with
    | Some c =>
        (file.mkFile (file.Path f) (file.FileName f) (file.Version f)
                     (file.Name f) c (file.Direction f), None)
    | None => (f, Some (ErrorString "no such file or directory"))
    end
  else (f, None).

Definition readMigrationFiles (files : file.MigrationFiles)
           (path regex : string) : file.MigrationFiles * option error :=
  if (path =? "/foobar")%string
  then (files, None)
  else ([], Some (ErrorString "no such file or directory")).

Definition env (fl : Faults) (files : file.MigrationFiles)
  : Env Store file.MigrationFiles :=
  {| db_Begin := fun _ => None;
     tx_Exec := exec fl;
     tx_Commit := fun _ => None;
     tx_Rollback := fun _ => rollback_error fl;
     db_Close := fun _ => None;
     db_QueryRow_Scan := queryRowScan;
     driver_New := new;
     ReadContent := readContent fl;
     LineColumnFromOffset := file.LineColumnFromOffset;
     LinesBeforeAndAfter := file.LinesBeforeAndAfter;
     FilenameRegex := fun ext => ext;
     ReadMigrationFiles := readMigrationFiles files;
     ToLastFrom := file.ToLastFrom;
     ToFirstFrom := file.ToFirstFrom;
     From := file.From |}.

Definition createYolo : string :=
  "CREATE TABLE yolo (" ++ newline
    ++ "  id serial not null primary key" ++ newline ++ ");".

Definition dropYolo : string := "DROP TABLE yolo;".

Definition createError : string :=
  "CREATE TABLE error (" ++ newline
    ++ "  id THIS WILL CAUSE AN ERROR" ++ newline ++ ")".

Definition up1 : file.File :=
  file.mkFile "/foobar" "001_foobar.up.sql" 1 "foobar" createYolo
              direction.Up.
Definition down1 : file.File :=
  file.mkFile "/foobar" "001_foobar.down.sql" 1 "foobar" dropYolo
              direction.Down.
Definition up2 : file.File :=
  file.mkFile "/foobar" "002_foobar.up.sql" 2 "foobar" createError
              direction.Up.

Definition files : file.MigrationFiles := [up1; down1; up2].

Definition syntaxError (position : string) : error :=
  PqError (pq.mkError "ERROR" "42601" "syntax error at or near THIS"
                      position).

Definition noFaults : Faults := mkFaults [] None [].

(** The server answers [createError] with a syntax error at character 27,
    the [T] of [THIS]. *)
Definition rejectError : Faults :=
  mkFaults [(createError, syntaxError "27")] None [].

(** The connection breaks while [createError] runs: the error [tx.Exec]
    returns is not a [*pq.Error]. *)
Definition lostConnection : Faults :=
  mkFaults [(createError, ErrorString "driver: bad connection")] None [].

(** The server reports a position far behind the end of the script. *)
Definition rejectFarAway : Faults :=
  mkFaults [(createError, syntaxError "500")] None [].

(** As [rejectError], and the rollback fails as well. *)
Definition rollbackFails : Faults :=
  mkFaults [(createError, syntaxError "27")]
           (Some (ErrorString "driver: bad connection")) [].

(** A record whose content has not been read and whose file is gone. *)
Definition missing : file.File :=
  file.mkFile "/foobar" "003_missing.up.sql" 3 "missing" EmptyString direction.Up.

Definition createLater : string := "CREATE TABLE later (id int);".

Definition up3 : file.File :=
  file.mkFile "/foobar" "003_later.up.sql" 3 "later" createLater
              direction.Up.


Definition dropLater : string := "DROP TABLE later;".

Definition down3 : file.File :=
  file.mkFile "/foobar" "003_later.down.sql" 3 "later" dropLater
              direction.Down.

(** Two versions, each with its Up and its Down record. *)
Definition filesPairs : file.MigrationFiles := [up1; down1; up3; down3].

(** The server rejects [dropYolo]. *)
Definition rejectDrop : Faults :=
  mkFaults [(dropYolo, syntaxError "1")] None [].

(** Versions 1 and 3 are applied. *)
Definition applied13 : World Store :=
  mkWorld (mkStore [3%N; 1%N] [createYolo; createLater]) [].

(** Two records that both apply. *)
Definition filesGood : file.MigrationFiles := [up1; down1; up3].

Definition empty : World Store := mkWorld (mkStore [] []) [].
Definition url : string := "postgres://postgres@localhost:5432/template1".

(** A disk for [Create]: the files written so far, newest first; a write to
    a path listed in [readonly] fails and changes nothing. *)
Definition Disk : Type := list (string * string).

Definition writeFile (readonly : list string) (path content : string)
           (disk : Disk) : option error * Disk :=
  if existsb (String.eqb path) readonly
  then (Some (ErrorString "permission denied"), disk)
  else (None, (path, content) :: disk).

Definition createEnv (readonly : list string)
  : CreateEnv Disk file.MigrationFiles :=
  {| versionsOf := map file.Version;
     path_Join := fun dir name => (dir ++ "/" ++ name)%string;
     ioutil_WriteFile := writeFile readonly |}.
End testdb.

(** ** Vocabulary of the statements below *)

Open Scope list_scope.

Section Vocabulary.
Context {Store MigrationFiles : Type} (E : Env Store MigrationFiles).

(** The version-table statement of [f] fails. *)
Definition markerFails (f : file.File) (w : World Store) : Prop :=
  exists err,
    tx_Exec E (postgres.markerSQL f) [file.Version f] (committed w)
    = ExecErr err.

(** The version-table statement and the read of the content succeed and the
    script itself fails with [err]. *)
Definition scriptFailsWith (f : file.File) (w : World Store) (err : error)
  : Prop :=
  exists tx f',
    tx_Exec E (postgres.markerSQL f) [file.Version f] (committed w)
    = ExecOk tx
    /\ ReadContent E f = (f', None)
    /\ tx_Exec E (file.Content f') [] tx = ExecErr err.

Definition isExec (ev : Event) : Prop :=
  exists query args, ev = TxExec query args.

(** Between [w] and [w'] one transaction was begun, ran statements only and
    was rolled back. *)
Definition rolledBack (w w' : World Store) : Prop :=
  exists statements r,
    log w' = log w ++ TxBegin :: statements ++ [TxRollback r]
    /\ Forall isExec statements.

Definition returnsError (out : Outcome (option error)) : Prop :=
  exists err, out = Returned (Some err).

(** No event of the list closes the database. *)
Definition noClose (events : list Event) : Prop :=
  forall r, ~ In (DbClose r) events.

(** The loop body succeeded on each record of a list, one after the other:
    [w'] is the world reached from [w]. *)
Inductive AppliedInOrder (d : postgres.Driver)
  : list file.File -> World Store -> World Store -> Prop :=
| applied_nil w : AppliedInOrder d [] w w
| applied_cons f rest w w1 w' :
    postgres.Migrate E d f w = (Returned None, w1) ->
    AppliedInOrder d rest w1 w' ->
    AppliedInOrder d (f :: rest) w w'.

(** Every way [Migrate] can run, with the value it returns and the events
    it adds. *)
Inductive MigratePath (f : file.File) (w : World Store)
  : Outcome (option error) -> list Event -> Store -> Prop :=
| path_begin_failed err :
    db_Begin E (committed w) = Some err ->
    MigratePath f w (Returned (Some err)) [] (committed w)
| path_marker_failed err :
    db_Begin E (committed w) = None ->
    tx_Exec E (postgres.markerSQL f) [file.Version f] (committed w)
    = ExecErr err ->
    MigratePath f w (Returned (Some err))
      [TxBegin; TxExec (postgres.markerSQL f) [file.Version f];
       TxRollback (tx_Rollback E (committed w))]
      (committed w)
| path_read_failed tx f' err :
    db_Begin E (committed w) = None ->
    tx_Exec E (postgres.markerSQL f) [file.Version f] (committed w)
    = ExecOk tx ->
    ReadContent E f = (f', Some err) ->
    MigratePath f w (Returned (Some err))
      [TxBegin; TxExec (postgres.markerSQL f) [file.Version f]]
      (committed w)
| path_script_failed tx f' pqErr :
    db_Begin E (committed w) = None ->
    tx_Exec E (postgres.markerSQL f) [file.Version f] (committed w)
    = ExecOk tx ->
    ReadContent E f = (f', None) ->
    tx_Exec E (file.Content f') [] tx = ExecErr (PqError pqErr) ->
    MigratePath f w
      (Returned (Some (postgres.decodeError E pqErr (file.Content f'))))
      [TxBegin; TxExec (postgres.markerSQL f) [file.Version f];
       TxExec (file.Content f') []; TxRollback (tx_Rollback E tx)]
      (committed w)
| path_panicked tx f' s :
    db_Begin E (committed w) = None ->
    tx_Exec E (postgres.markerSQL f) [file.Version f] (committed w)
    = ExecOk tx ->
    ReadContent E f = (f', None) ->
    tx_Exec E (file.Content f') [] tx = ExecErr (ErrorString s) ->
    MigratePath f w (Panicked TypeAssertionFailed)
      [TxBegin; TxExec (postgres.markerSQL f) [file.Version f];
       TxExec (file.Content f') []]
      (committed w)
| path_commit_failed tx f' tx' err :
    db_Begin E (committed w) = None ->
    tx_Exec E (postgres.markerSQL f) [file.Version f] (committed w)
    = ExecOk tx ->
    ReadContent E f = (f', None) ->
    tx_Exec E (file.Content f') [] tx = ExecOk tx' ->
    tx_Commit E tx' = Some err ->
    MigratePath f w (Returned (Some err))
      [TxBegin; TxExec (postgres.markerSQL f) [file.Version f];
       TxExec (file.Content f') []; TxCommit (Some err)]
      (committed w)
| path_committed tx f' tx' :
    db_Begin E (committed w) = None ->
    tx_Exec E (postgres.markerSQL f) [file.Version f] (committed w)
    = ExecOk tx ->
    ReadContent E f = (f', None) ->
    tx_Exec E (file.Content f') [] tx = ExecOk tx' ->
    tx_Commit E tx' = None ->
    MigratePath f w (Returned None)
      [TxBegin; TxExec (postgres.markerSQL f) [file.Version f];
       TxExec (file.Content f') []; TxCommit None]
      tx'.

(** The same environment with another behaviour of [tx.Rollback]. *)
Definition withRollback (r : Store -> option error)
  : Env Store MigrationFiles :=
  {| db_Begin := db_Begin E;
     tx_Exec := tx_Exec E;
     tx_Commit := tx_Commit E;
     tx_Rollback := r;
     db_Close := db_Close E;
     db_QueryRow_Scan := db_QueryRow_Scan E;
     driver_New := driver_New E;
     ReadContent := ReadContent E;
     LineColumnFromOffset := LineColumnFromOffset E;
     LinesBeforeAndAfter := LinesBeforeAndAfter E;
     FilenameRegex := FilenameRegex E;
     ReadMigrationFiles := ReadMigrationFiles E;
     ToLastFrom := ToLastFrom E;
     ToFirstFrom := ToFirstFrom E;
     From := From E |}.
End Vocabulary.

(** A process: the world, the interrupt state of package [migrate], and the
    interrupt signals delivered to the process so far.  An operation is a
    function of the world alone, because no operation reads [interrupts] or
    calls [handleInterrupts]; running it in a process leaves the rest as it
    was. *)
Record Process (Store : Type) := mkProcess {
  world : World Store;
  signals : migrate.Interrupts;
  delivered : nat
}.
Arguments mkProcess {Store}.
Arguments world {Store}.
Arguments signals {Store}.
Arguments delivered {Store}.

Definition run {Store A} (op : World Store -> A * World Store)
           (p : Process Store) : A * Process Store :=
  let '(out, w) := op (world p) in
  (out, mkProcess w (signals p) (delivered p)).

(** * Properties *)

Section MigrateFacts.
Context {Store MigrationFiles : Type} (E : Env Store MigrationFiles).

Lemma Migrate_marker_failure d f w err :
  db_Begin E (committed w) = None ->
  tx_Exec E (postgres.markerSQL f) [file.Version f] (committed w)
  = ExecErr err ->
  postgres.Migrate E d f w
  = (Returned (Some err),
     mkWorld (committed w)
             (log w ++ [TxBegin;
                        TxExec (postgres.markerSQL f) [file.Version f];
                        TxRollback (tx_Rollback E (committed w))])).
Proof.
  intros Hb Hm. unfold postgres.Migrate. rewrite Hb. unfold emit, commit; cbn [committed log].
  rewrite Hm. unfold emit, commit; cbn [committed log].
  rewrite <- ?app_assoc. reflexivity.
Qed.

Lemma Migrate_read_failure d f w tx f' err :
  db_Begin E (committed w) = None ->
  tx_Exec E (postgres.markerSQL f) [file.Version f] (committed w)
  = ExecOk tx ->
  ReadContent E f = (f', Some err) ->
  postgres.Migrate E d f w
  = (Returned (Some err),
     mkWorld (committed w)
             (log w ++ [TxBegin;
                        TxExec (postgres.markerSQL f) [file.Version f]])).
Proof.
  intros Hb Hm Hr. unfold postgres.Migrate. rewrite Hb.
  unfold emit, commit; cbn [committed log]. rewrite Hm, Hr. unfold emit, commit; cbn [committed log].
  rewrite <- ?app_assoc. reflexivity.
Qed.

Lemma Migrate_script_pq_failure d f w tx f' pqErr :
  db_Begin E (committed w) = None ->
  tx_Exec E (postgres.markerSQL f) [file.Version f] (committed w)
  = ExecOk tx ->
  ReadContent E f = (f', None) ->
  tx_Exec E (file.Content f') [] tx = ExecErr (PqError pqErr) ->
  postgres.Migrate E d f w
  = (Returned (Some (postgres.decodeError E pqErr (file.Content f'))),
     mkWorld (committed w)
             (log w ++ [TxBegin;
                        TxExec (postgres.markerSQL f) [file.Version f];
                        TxExec (file.Content f') [];
                        TxRollback (tx_Rollback E tx)])).
Proof.
  intros Hb Hm Hr Hx. unfold postgres.Migrate. rewrite Hb.
  unfold emit, commit; cbn [committed log]. rewrite Hm, Hr, Hx. unfold emit, commit; cbn [committed log].
  rewrite <- ?app_assoc. reflexivity.
Qed.

Lemma Migrate_script_foreign_failure d f w tx f' s :
  db_Begin E (committed w) = None ->
  tx_Exec E (postgres.markerSQL f) [file.Version f] (committed w)
  = ExecOk tx ->
  ReadContent E f = (f', None) ->
  tx_Exec E (file.Content f') [] tx = ExecErr (ErrorString s) ->
  postgres.Migrate E d f w
  = (Panicked TypeAssertionFailed,
     mkWorld (committed w)
             (log w ++ [TxBegin;
                        TxExec (postgres.markerSQL f) [file.Version f];
                        TxExec (file.Content f') []])).
Proof.
  intros Hb Hm Hr Hx. unfold postgres.Migrate. rewrite Hb.
  unfold emit, commit; cbn [committed log]. rewrite Hm, Hr, Hx. unfold emit, commit; cbn [committed log].
  rewrite <- ?app_assoc. reflexivity.
Qed.

Lemma Migrate_script_success d f w tx f' tx' :
  db_Begin E (committed w) = None ->
  tx_Exec E (postgres.markerSQL f) [file.Version f] (committed w)
  = ExecOk tx ->
  ReadContent E f = (f', None) ->
  tx_Exec E (file.Content f') [] tx = ExecOk tx' ->
  postgres.Migrate E d f w
  = (Returned (tx_Commit E tx'),
     mkWorld (match tx_Commit E tx' with
              | None => tx'
              | Some _ => committed w
              end)
             (log w ++ [TxBegin;
                        TxExec (postgres.markerSQL f) [file.Version f];
                        TxExec (file.Content f') [];
                        TxCommit (tx_Commit E tx')])).
Proof.
  intros Hb Hm Hr Hx. unfold postgres.Migrate. rewrite Hb.
  unfold emit, commit; cbn [committed log]. rewrite Hm, Hr, Hx. unfold emit, commit; cbn [committed log].
  destruct (tx_Commit E tx'); unfold emit, commit; cbn [committed log];
    rewrite <- ?app_assoc; reflexivity.
Qed.

(** A call of [Migrate] that does not return [nil] leaves the committed
    state of the database as it was. *)
Lemma Migrate_not_ok_keeps_committed d f w out w' :
  postgres.Migrate E d f w = (out, w') ->
  out <> Returned None ->
  committed w' = committed w.
Proof.
  unfold postgres.Migrate.
  destruct (db_Begin E (committed w)).
  { intros H _. inversion H. reflexivity. }
  unfold emit, commit; cbn [committed log].
  destruct (tx_Exec E (postgres.markerSQL f) [file.Version f] (committed w))
    as [tx|err].
  2:{ intros H _. inversion H. reflexivity. }
  destruct (ReadContent E f) as [f' [err|]].
  { intros H _. inversion H. reflexivity. }
  destruct (tx_Exec E (file.Content f') [] tx) as [tx'|[pqErr|s]].
  - destruct (tx_Commit E tx').
    + intros H _. inversion H. reflexivity.
    + intros H Hne. inversion H. subst. congruence.
  - intros H _. inversion H. reflexivity.
  - intros H _. inversion H. reflexivity.
Qed.
End MigrateFacts.

(** ** [Driver.Migrate]: one record in one transaction *)

Section DriverMigrate.
Context {Store MigrationFiles : Type} (E : Env Store MigrationFiles).

(** The two failure paths that roll back: when the version-table statement
    of a record fails, or its script fails with an error of type
    [*pq.Error], [Driver.Migrate] rolls the transaction back, returns a
    non-nil error, and leaves the committed database (version table and
    schema) and hence [Version()] as they were before the call. *)
Theorem Migrate_failure_rolls_back d f w :
  db_Begin E (committed w) = None ->
  markerFails E f w \/ (exists pqErr, scriptFailsWith E f w (PqError pqErr)) ->
  returnsError (fst (postgres.Migrate E d f w))
  /\ rolledBack w (snd (postgres.Migrate E d f w))
  /\ committed (snd (postgres.Migrate E d f w)) = committed w
  /\ postgres.Version E d (snd (postgres.Migrate E d f w))
     = postgres.Version E d w.
Proof.
  intros Hb [[err Hm] | [pqErr (tx & f' & Hm & Hr & Hx)]].
  - rewrite (Migrate_marker_failure E d f w err Hb Hm).
    cbn [fst snd]. repeat split.
    + exists err. reflexivity.
    + exists [TxExec (postgres.markerSQL f) [file.Version f]],
        (tx_Rollback E (committed w)).
      cbn [log]. split; [reflexivity|].
      repeat constructor. eexists; eexists; reflexivity.
  - rewrite (Migrate_script_pq_failure E d f w tx f' pqErr Hb Hm Hr Hx).
    cbn [fst snd]. repeat split.
    + eexists. reflexivity.
    + exists [TxExec (postgres.markerSQL f) [file.Version f];
              TxExec (file.Content f') []], (tx_Rollback E tx).
      cbn [log]. split; [reflexivity|].
      repeat constructor; eexists; eexists; reflexivity.
Qed.

(** C2: once the transaction is begun, the first statement [Driver.Migrate]
    sends is the version-table update: the insert for Up, the delete for
    Down, with the record's version.  When that update fails the
    transaction is rolled back and the script is not run.  When it succeeds
    and the content is read, the script is the next statement, it runs on
    the state the update produced, in the same transaction (there is one
    [Begin]), and the transaction ends with the commit when the script
    succeeds; a successful commit makes the state the script left the
    committed one and [Migrate] returns nil.  When the content cannot be
    read nothing follows the update. *)
Theorem Migrate_marker_before_script d f w :
  db_Begin E (committed w) = None ->
  let marker :=
    match file.Direction f with
    | direction.Up => postgres.insertSQL
    | direction.Down => postgres.deleteSQL
    end in
  exists rest,
    log (snd (postgres.Migrate E d f w))
    = log w ++ TxBegin :: TxExec marker [file.Version f] :: rest
    /\ match tx_Exec E marker [file.Version f] (committed w) with
       | ExecErr err =>
           rest = [TxRollback (tx_Rollback E (committed w))]
           /\ fst (postgres.Migrate E d f w) = Returned (Some err)
       | ExecOk tx =>
           match ReadContent E f with
           | (_, Some err) =>
               rest = []
               /\ fst (postgres.Migrate E d f w) = Returned (Some err)
           | (f', None) =>
               exists tail,
                 rest = TxExec (file.Content f') [] :: tail
                 /\ match tx_Exec E (file.Content f') [] tx with
                    | ExecOk tx' =>
                        tail = [TxCommit (tx_Commit E tx')]
                        /\ fst (postgres.Migrate E d f w)
                           = Returned (tx_Commit E tx')
                        /\ (tx_Commit E tx' = None ->
                            committed (snd (postgres.Migrate E d f w))
                            = tx')
                    | ExecErr (PqError pqErr) =>
                        tail = [TxRollback (tx_Rollback E tx)]
                        /\ fst (postgres.Migrate E d f w)
                           = Returned
                               (Some (postgres.decodeError
                                        E pqErr (file.Content f')))
                    | ExecErr (ErrorString _) =>
                        tail = []
                        /\ fst (postgres.Migrate E d f w)
                           = Panicked TypeAssertionFailed
                    end
           end
       end.
Proof.
  intros Hb marker.
  assert (Hmk : postgres.markerSQL f = marker) by reflexivity.
  destruct (tx_Exec E marker [file.Version f] (committed w))
    as [tx|err] eqn:Hm; rewrite <- Hmk in Hm.
  2:{ rewrite (Migrate_marker_failure E d f w err Hb Hm). rewrite Hmk.
      eexists. split; [reflexivity|]. split; reflexivity. }
  destruct (ReadContent E f) as [f' [err|]] eqn:Hr.
  { rewrite (Migrate_read_failure E d f w tx f' err Hb Hm Hr). rewrite Hmk.
    eexists. split; [reflexivity|]. split; reflexivity. }
  destruct (tx_Exec E (file.Content f') [] tx) as [tx'|[pqErr|s]] eqn:Hx.
  - rewrite (Migrate_script_success E d f w tx f' tx' Hb Hm Hr Hx).
    rewrite Hmk. eexists. split; [reflexivity|].
    eexists. split; [reflexivity|].
    split; [reflexivity|]. split; [reflexivity|].
    intros Hc. cbn [snd committed]. rewrite Hc. reflexivity.
  - rewrite (Migrate_script_pq_failure E d f w tx f' pqErr Hb Hm Hr Hx).
    rewrite Hmk. eexists. split; [reflexivity|].
    eexists. split; [reflexivity|]. split; reflexivity.
  - rewrite (Migrate_script_foreign_failure E d f w tx f' s Hb Hm Hr Hx).
    rewrite Hmk. eexists. split; [reflexivity|].
    eexists. split; [reflexivity|]. split; reflexivity.
Qed.

(** C9: when the script fails with an error that is not a [*pq.Error], the
    type assertion of [Driver.Migrate] panics: no error, plain or decoded, is
    returned to the caller, and the transaction that was begun has run its
    statements and is neither committed nor rolled back. *)
Theorem Migrate_panics_on_foreign_error d f w s :
  db_Begin E (committed w) = None ->
  scriptFailsWith E f w (ErrorString s) ->
  fst (postgres.Migrate E d f w) = Panicked TypeAssertionFailed
  /\ (forall err, fst (postgres.Migrate E d f w) <> Returned err)
  /\ exists statements,
       log (snd (postgres.Migrate E d f w))
       = log w ++ TxBegin :: statements
       /\ Forall isExec statements.
Proof.
  intros Hb (tx & f' & Hm & Hr & Hx).
  rewrite (Migrate_script_foreign_failure E d f w tx f' s Hb Hm Hr Hx).
  cbn [fst snd log]. split; [reflexivity|]. split.
  - intros err H. discriminate H.
  - eexists. split; [reflexivity|].
    repeat constructor; eexists; eexists; reflexivity.
Qed.
End DriverMigrate.

(** ** [Driver.Migrate]: the error it returns *)

Section ErrorDecoding.
Context {Store MigrationFiles : Type} (E : Env Store MigrationFiles).

Lemma Atoi_empty : strconv.Atoi EmptyString = None.
Proof. reflexivity. Qed.

Lemma decodeError_position pqErr content offset :
  strconv.Atoi (pq.Position pqErr) = Some offset ->
  (0 <= offset)%Z ->
  postgres.decodeError E pqErr content
  = ErrorString
      (postgres.positionMessage pqErr
         (fst (LineColumnFromOffset E content (offset - 1)))
         (snd (LineColumnFromOffset E content (offset - 1)))
         (LinesBeforeAndAfter E content
            (fst (LineColumnFromOffset E content (offset - 1))) 5 5 true)).
Proof.
  intros Ha Hpos. unfold postgres.decodeError. rewrite Ha.
  apply Z.leb_le in Hpos. rewrite Hpos.
  destruct (LineColumnFromOffset E content (offset - 1)). reflexivity.
Qed.

Lemma decodeError_plain pqErr content :
  strconv.Atoi (pq.Position pqErr) = None
  \/ (exists offset,
         strconv.Atoi (pq.Position pqErr) = Some offset /\ (offset < 0)%Z) ->
  postgres.decodeError E pqErr content
  = ErrorString (postgres.plainMessage pqErr).
Proof.
  intros [Ha | [offset [Ha Hneg]]]; unfold postgres.decodeError; rewrite Ha.
  - reflexivity.
  - apply Z.leb_gt in Hneg. rewrite Hneg. reflexivity.
Qed.

Lemma length_append (s1 s2 : string) :
  String.length (s1 ++ s2)%string
  = (String.length s1 + String.length s2)%nat.
Proof.
  induction s1 as [|c s1 IH]; cbn; [reflexivity|]. rewrite IH. reflexivity.
Qed.

(** The positional message is never the plain one, whatever line, column and
    window it carries. *)
Lemma positionMessage_not_plain pqErr lineNo columnNo errorPart :
  postgres.positionMessage pqErr lineNo columnNo errorPart
  <> postgres.plainMessage pqErr.
Proof.
  unfold postgres.positionMessage, postgres.plainMessage. intros H.
  apply (f_equal String.length) in H.
  repeat rewrite length_append in H. cbn [String.length] in H. lia.
Qed.

(** C4 (amended): when the script fails with a [*pq.Error], the error
    [Driver.Migrate] returns is decoded from it.  If [Position] reads as an
    integer that is at least 1, the message is severity, code and message
    text, then the line and the column that [file.LineColumnFromOffset]
    gives for the 0-based offset [Position - 1], then the window
    [file.LinesBeforeAndAfter] cuts out of the script with 5 lines before
    and 5 lines after that line.  If [Position] is empty or is not an
    integer, or is negative, the message is the plain severity, code and
    message text.  The position is not compared with the length of the
    script. *)
Theorem Migrate_decodes_position d f w pqErr :
  db_Begin E (committed w) = None ->
  scriptFailsWith E f w (PqError pqErr) ->
  exists f',
    ReadContent E f = (f', None)
    /\ (forall offset,
           strconv.Atoi (pq.Position pqErr) = Some offset ->
           (1 <= offset)%Z ->
           let lc := LineColumnFromOffset E (file.Content f') (offset - 1) in
           fst (postgres.Migrate E d f w)
           = Returned (Some (ErrorString
               (pq.Severity pqErr ++ " " ++ pq.Code pqErr ++ ": "
                ++ pq.Message pqErr
                ++ " in line " ++ strconv.Itoa (fst lc)
                ++ ", column " ++ strconv.Itoa (snd lc) ++ ":"
                ++ newline ++ newline
                ++ LinesBeforeAndAfter E (file.Content f') (fst lc) 5 5 true)
               %string)))
    /\ (pq.Position pqErr = EmptyString
        \/ strconv.Atoi (pq.Position pqErr) = None
        \/ (exists offset,
               strconv.Atoi (pq.Position pqErr) = Some offset
               /\ (offset < 0)%Z) ->
        fst (postgres.Migrate E d f w)
        = Returned (Some (ErrorString
            (pq.Severity pqErr ++ " " ++ pq.Code pqErr ++ ": "
             ++ pq.Message pqErr)%string))).
Proof.
  intros Hb (tx & f' & Hm & Hr & Hx). exists f'. split; [exact Hr|].
  rewrite (Migrate_script_pq_failure E d f w tx f' pqErr Hb Hm Hr Hx).
  cbn [fst]. split.
  - intros offset Ha Hpos.
    rewrite (decodeError_position pqErr (file.Content f') offset Ha)
      by lia.
    reflexivity.
  - intros H. rewrite decodeError_plain; [reflexivity|].
    destruct H as [H | [H | H]].
    + left. rewrite H. exact Atoi_empty.
    + left. exact H.
    + right. exact H.
Qed.

(** C6 (amended): the result of [tx.Rollback] is dropped.  Whatever the
    rollback answers, and whether it fails or not, [Driver.Migrate] returns
    the same value to its caller and leaves the same committed database;
    the caller cannot tell a failed rollback from a successful one. *)
Theorem Migrate_discards_rollback_error r1 r2 d f w :
  fst (postgres.Migrate (withRollback E r1) d f w)
  = fst (postgres.Migrate (withRollback E r2) d f w)
  /\ committed (snd (postgres.Migrate (withRollback E r1) d f w))
     = committed (snd (postgres.Migrate (withRollback E r2) d f w)).
Proof.
  unfold postgres.Migrate, postgres.decodeError, withRollback.
  cbn [db_Begin tx_Exec tx_Commit tx_Rollback ReadContent
       LineColumnFromOffset LinesBeforeAndAfter].
  destruct (db_Begin E (committed w)); [split; reflexivity|].
  unfold emit, commit; cbn [committed log].
  destruct (tx_Exec E (postgres.markerSQL f) [file.Version f] (committed w))
    as [tx|err]; [|split; reflexivity].
  destruct (ReadContent E f) as [f' [err|]]; [split; reflexivity|].
  destruct (tx_Exec E (file.Content f') [] tx) as [tx'|[pqErr|s]];
    try (split; reflexivity).
Qed.
End ErrorDecoding.

(** ** The entry points of package [migrate] *)

Section Orchestrator.
Context {Store MigrationFiles : Type} (E : Env Store MigrationFiles).

(** The loop stops at the first record whose [Migrate] returns an error. *)
Lemma applyEach_stops d applied failing remaining w0 w1 err w2 :
  AppliedInOrder E d applied w0 w1 ->
  postgres.Migrate E d failing w1 = (Returned (Some err), w2) ->
  migrate.applyEach E d (applied ++ failing :: remaining) w0
  = (Returned (Some err), w2).
Proof.
  intros Happlied Hfail.
  induction Happlied as [w|f rest w wa w' Hf _ IH].
  - cbn [app migrate.applyEach]. rewrite Hfail. reflexivity.
  - cbn [app migrate.applyEach]. rewrite Hf. exact (IH Hfail).
Qed.

(** The loop on records that all succeed. *)
Lemma applyEach_all d files w0 w1 :
  AppliedInOrder E d files w0 w1 ->
  migrate.applyEach E d files w0 = (Returned None, w1).
Proof.
  intros Happlied. induction Happlied as [w|f rest w wa w' Hf _ IH].
  - reflexivity.
  - cbn [migrate.applyEach]. rewrite Hf. exact IH.
Qed.


(** C7 (amended): [Redo] is [Migrate] with -1 followed by [Migrate] with +1
    on the same url and path.  When the first call returns an error or
    panics, that is the result of [Redo] and the second call is not made.
    When it returns nil the second call is made.  When no migration is
    applied and [From] has nothing to roll back (an empty list and no
    error), the first call returns nil, so the second call is made. *)
Theorem Redo_rollback_then_reapply url path w out1 w1 :
  migrate.Migrate E url path (-1) w = (out1, w1) ->
  (out1 <> Returned None -> migrate.Redo E url path w = (out1, w1))
  /\ (out1 = Returned None ->
      migrate.Redo E url path w = migrate.Migrate E url path 1 w1)
  /\ (forall d files w0,
         migrate.initDriverAndReadMigrationFilesAndGetVersion E url path w
         = ((Some d, Some files, 0%N, None), w0) ->
         From E files 0%N (-1) = ([], None) ->
         out1 = Returned None
         /\ migrate.Redo E url path w = migrate.Migrate E url path 1 w1).
Proof.
  intros Hfirst.
  assert (Hnil : out1 = Returned None ->
                 migrate.Redo E url path w = migrate.Migrate E url path 1 w1).
  { intros ->. unfold migrate.Redo. rewrite Hfirst. reflexivity. }
  split; [|split; [exact Hnil|]].
  - intros Hne. unfold migrate.Redo. rewrite Hfirst.
    destruct out1 as [[err|]|p]; [reflexivity|congruence|reflexivity].
  - intros d files w0 Hinit Hfrom.
    assert (Hout : out1 = Returned None).
    { unfold migrate.Migrate in Hfirst. rewrite Hinit, Hfrom in Hfirst.
      cbn in Hfirst. inversion Hfirst. reflexivity. }
    split; [exact Hout|exact (Hnil Hout)].
Qed.

(** C10: when [driver.New] fails, [Up] and [Migrate] panic on the nil
    driver in [defer d.Close()] and do not return the error; [Down] returns
    the error, and nothing is closed. *)
Theorem nil_driver_panics url path relativeN w err s :
  driver_New E url (committed w) = (Some err, s) ->
  migrate.Up E url path w = (Panicked NilDereference, commit s w)
  /\ migrate.Migrate E url path relativeN w
     = (Panicked NilDereference, commit s w)
  /\ migrate.Down E url path w = (Returned (Some err), commit s w)
  /\ log (snd (migrate.Down E url path w)) = log w.
Proof.
  intros Hnew.
  unfold migrate.Up, migrate.Migrate, migrate.Down,
    migrate.initDriverAndReadMigrationFilesAndGetVersion.
  rewrite Hnew. repeat split.
Qed.

Lemma Migrate_log d f w :
  exists events,
    log (snd (postgres.Migrate E d f w)) = log w ++ events
    /\ noClose events.
Proof.
  unfold postgres.Migrate.
  destruct (db_Begin E (committed w)).
  { exists []. cbn. rewrite app_nil_r. split; [reflexivity|]. intros r []. }
  unfold emit, commit; cbn [committed log].
  destruct (tx_Exec E (postgres.markerSQL f) [file.Version f] (committed w))
    as [tx|err].
  2:{ cbn [snd log]. rewrite <- ?app_assoc. eexists. split; [reflexivity|].
      intros r H. cbn in H. intuition discriminate. }
  destruct (ReadContent E f) as [f' [err|]].
  { cbn [snd log]. rewrite <- ?app_assoc. eexists. split; [reflexivity|].
    intros r H. cbn in H. intuition discriminate. }
  destruct (tx_Exec E (file.Content f') [] tx) as [tx'|[pqErr|s]];
    [destruct (tx_Commit E tx')| |];
    cbn [snd log committed]; rewrite <- ?app_assoc;
    (eexists; split; [reflexivity|]);
    intros r H; cbn in H; intuition discriminate.
Qed.

Lemma applyEach_log d files w :
  exists events,
    log (snd (migrate.applyEach E d files w)) = log w ++ events
    /\ noClose events.
Proof.
  revert w. induction files as [|f rest IH]; intros w.
  - exists []. cbn. rewrite app_nil_r. split; [reflexivity|]. intros r [].
  - cbn [migrate.applyEach].
    destruct (Migrate_log d f w) as (ev1 & Hlog1 & Hno1).
    destruct (postgres.Migrate E d f w) as [[[err|]|p] w1];
      cbn [snd] in Hlog1; try (exists ev1; split; assumption).
    destruct (IH w1) as (ev2 & Hlog2 & Hno2).
    exists (ev1 ++ ev2). rewrite Hlog2, Hlog1, app_assoc.
    split; [reflexivity|].
    intros r H. apply in_app_or in H. destruct H as [H|H].
    + exact (Hno1 r H).
    + exact (Hno2 r H).
Qed.

(** X15: [Down] has no [defer d.Close()]: once the driver is initialized
    it is never closed, whether the records succeed, fail or panic. *)
Lemma Down_does_not_close url path w d files version w0 :
  migrate.initDriverAndReadMigrationFilesAndGetVersion E url path w
  = ((Some d, Some files, version, None), w0) ->
  exists events,
    log (snd (migrate.Down E url path w)) = log w0 ++ events
    /\ noClose events.
Proof.
  intros Hinit. unfold migrate.Down. rewrite Hinit.
  destruct (ToFirstFrom E files version) as [l e].
  apply applyEach_log.
Qed.
End Orchestrator.

(** ** The scenarios of [postgres_test.go] *)

Lemma last_event_of_rolled_back (l statements : list Event) r :
  last (l ++ TxBegin :: statements ++ [TxRollback r]) TxBegin = TxRollback r.
Proof.
  change (l ++ TxBegin :: statements ++ [TxRollback r])
    with (l ++ (TxBegin :: statements) ++ [TxRollback r]).
  rewrite app_assoc. apply last_last.
Qed.

(** The third file of the test is rejected by the server with a
    [*pq.Error]: the transaction is rolled back. *)
Lemma Migrate_failure_rolls_back_witness :
  let E := testdb.env testdb.rejectError testdb.files in
  let r := postgres.Migrate E postgres.mkDriver testdb.up2 testdb.empty in
  db_Begin E (committed testdb.empty) = None
  /\ (exists pqErr, scriptFailsWith E testdb.up2 testdb.empty (PqError pqErr))
  /\ returnsError (fst r)
  /\ rolledBack testdb.empty (snd r)
  /\ committed (snd r) = committed testdb.empty.
Proof.
  intros E r.
  assert (Hs : exists pqErr,
             scriptFailsWith E testdb.up2 testdb.empty (PqError pqErr)).
  { eexists. eexists. eexists.
    split; [reflexivity|]. split; reflexivity. }
  split; [reflexivity|]. split; [exact Hs|].
  destruct (Migrate_failure_rolls_back E postgres.mkDriver testdb.up2
              testdb.empty eq_refl (or_intror Hs)) as (H1 & H2 & H3 & _).
  split; [exact H1|]. split; [exact H2|exact H3].
Defined.

(** C1: the script of a record fails with an error that is not a
    [*pq.Error] (the connection breaks while it runs).  [Driver.Migrate]
    panics at the type assertion: it returns no error, and the transaction
    it began is not rolled back. *)
Lemma Migrate_foreign_failure_not_rolled_back :
  let E := testdb.env testdb.lostConnection testdb.files in
  let r := postgres.Migrate E postgres.mkDriver testdb.up2 testdb.empty in
  db_Begin E (committed testdb.empty) = None
  /\ scriptFailsWith E testdb.up2 testdb.empty
       (ErrorString "driver: bad connection")
  /\ ~ returnsError (fst r)
  /\ ~ rolledBack testdb.empty (snd r).
Proof.
  intros E r. split; [reflexivity|]. split.
  { eexists. eexists. split; [reflexivity|]. split; reflexivity. }
  split.
  - intros [err H]. vm_compute in H. discriminate H.
  - intros (statements & r0 & H & _).
    apply (f_equal (fun l => last l TxBegin)) in H.
    rewrite last_event_of_rolled_back in H.
    vm_compute in H. discriminate H.
Qed.

(** C2, witness: the first file of the test: the insert of version 1,
    then the script, then the commit. *)
Lemma Migrate_marker_before_script_witness :
  let E := testdb.env testdb.noFaults testdb.files in
  db_Begin E (committed testdb.empty) = None
  /\ log (snd (postgres.Migrate E postgres.mkDriver testdb.up1
                                testdb.empty))
     = [TxBegin; TxExec postgres.insertSQL [1%N];
        TxExec testdb.createYolo []; TxCommit None].
Proof.
  intros E. split; [reflexivity|].
  destruct (Migrate_marker_before_script E postgres.mkDriver testdb.up1
              testdb.empty eq_refl) as (rest & H & Hrest).
  rewrite H. cbn in Hrest. destruct Hrest as (tail & -> & -> & _).
  reflexivity.
Defined.

(** C9, witness: the connection breaks while the script runs. *)
Lemma Migrate_panics_on_foreign_error_witness :
  let E := testdb.env testdb.lostConnection testdb.files in
  db_Begin E (committed testdb.empty) = None
  /\ scriptFailsWith E testdb.up2 testdb.empty
       (ErrorString "driver: bad connection")
  /\ fst (postgres.Migrate E postgres.mkDriver testdb.up2 testdb.empty)
     = Panicked TypeAssertionFailed.
Proof.
  intros E.
  assert (Hs : scriptFailsWith E testdb.up2 testdb.empty
                 (ErrorString "driver: bad connection")).
  { eexists. eexists. split; [reflexivity|]. split; reflexivity. }
  split; [reflexivity|]. split; [exact Hs|].
  exact (proj1 (Migrate_panics_on_foreign_error E postgres.mkDriver
                  testdb.up2 testdb.empty _ eq_refl Hs)).
Defined.

(** C4, witness: the syntax error at character 27 is reported in line 2,
    column 6. *)
Lemma Migrate_decodes_position_witness :
  let E := testdb.env testdb.rejectError testdb.files in
  db_Begin E (committed testdb.empty) = None
  /\ scriptFailsWith E testdb.up2 testdb.empty (testdb.syntaxError "27")
  /\ fst (postgres.Migrate E postgres.mkDriver testdb.up2 testdb.empty)
     = Returned (Some (ErrorString
         ("ERROR 42601: syntax error at or near THIS in line 2, column 6:"
          ++ newline ++ newline ++ testdb.createError)%string)).
Proof.
  intros E.
  assert (Hs : scriptFailsWith E testdb.up2 testdb.empty
                 (testdb.syntaxError "27")).
  { eexists. eexists. split; [reflexivity|]. split; reflexivity. }
  split; [reflexivity|]. split; [exact Hs|].
  destruct (Migrate_decodes_position E postgres.mkDriver testdb.up2
              testdb.empty _ eq_refl Hs) as (f' & Hr & Hpos & _).
  injection Hr as <-.
  exact (Hpos 27%Z eq_refl ltac:(lia)).
Defined.

(** C4, counterexample: the reported position 500 lies behind the end of
    the script, the computed offset is out of range, and the error is not
    the plain severity, code and message. *)
Lemma Migrate_out_of_range_not_plain :
  let E := testdb.env testdb.rejectFarAway testdb.files in
  let pqErr :=
    pq.mkError "ERROR" "42601" "syntax error at or near THIS" "500" in
  scriptFailsWith E testdb.up2 testdb.empty (PqError pqErr)
  /\ strconv.Atoi (pq.Position pqErr) = Some 500%Z
  /\ (Z.of_nat (String.length testdb.createError) < 500 - 1)%Z
  /\ fst (postgres.Migrate E postgres.mkDriver testdb.up2 testdb.empty)
     <> Returned (Some (ErrorString (postgres.plainMessage pqErr))).
Proof.
  intros E pqErr. split.
  { eexists. eexists. split; [reflexivity|]. split; reflexivity. }
  split; [reflexivity|]. split; [vm_compute; reflexivity|].
  intros H. vm_compute in H. discriminate H.
Qed.

(** C6, counterexample: the rollback fails, and the caller receives exactly
    what it receives when the rollback succeeds. *)
Lemma Migrate_rollback_failure_unseen :
  let Efail := testdb.env testdb.rollbackFails testdb.files in
  let Eok := testdb.env testdb.rejectError testdb.files in
  In (TxRollback (Some (ErrorString "driver: bad connection")))
     (log (snd (postgres.Migrate Efail postgres.mkDriver testdb.up2
                                 testdb.empty)))
  /\ fst (postgres.Migrate Efail postgres.mkDriver testdb.up2 testdb.empty)
     = fst (postgres.Migrate Eok postgres.mkDriver testdb.up2 testdb.empty).
Proof.
  intros Efail Eok. split.
  - vm_compute. right; right; right; left. reflexivity.
  - vm_compute. reflexivity.
Qed.

(** C8: the record [missing] has no content and its file cannot be read.
    [Driver.Migrate] begins the transaction, inserts the version, returns
    the read error, and the transaction is neither committed nor rolled
    back. *)
Theorem Migrate_read_failure_leaves_transaction_open :
  let E := testdb.env testdb.noFaults testdb.files in
  let r := postgres.Migrate E postgres.mkDriver testdb.missing testdb.empty in
  fst r = Returned (Some (ErrorString "no such file or directory"))
  /\ log (snd r) = [TxBegin; TxExec postgres.insertSQL [3%N]]
  /\ filter is_release (log (snd r)) = []
  /\ open_transactions (log (snd r)) = 1%Z.
Proof.
  intros E r. repeat split.
Qed.


(** C7, witness: version 1 is applied; the rollback step succeeds and the
    reapply step runs. *)
Lemma Redo_rollback_then_reapply_witness :
  let E := testdb.env testdb.noFaults testdb.files in
  let w := mkWorld (testdb.mkStore [1%N] [testdb.createYolo]) [] in
  let w1 := snd (migrate.Migrate E testdb.url "/foobar" (-1) w) in
  migrate.Migrate E testdb.url "/foobar" (-1) w = (Returned None, w1)
  /\ migrate.Redo E testdb.url "/foobar" w
     = migrate.Migrate E testdb.url "/foobar" 1 w1.
Proof.
  intros E w w1.
  assert (H : migrate.Migrate E testdb.url "/foobar" (-1) w
              = (Returned None, w1)) by reflexivity.
  split; [exact H|].
  exact (proj1 (proj2 (Redo_rollback_then_reapply E testdb.url "/foobar" w
                         (Returned None) w1 H)) eq_refl).
Defined.

(** C7, counterexample: no migration is applied; the rollback step returns
    nil, the reapply step runs, and [Redo] leaves version 1 applied. *)
Lemma Redo_nothing_applied_reapplies :
  let E := testdb.env testdb.noFaults testdb.files in
  let r := migrate.Redo E testdb.url "/foobar" testdb.empty in
  postgres.Version E postgres.mkDriver testdb.empty = (0%N, None)
  /\ fst (migrate.Migrate E testdb.url "/foobar" (-1) testdb.empty)
     = Returned None
  /\ fst r = Returned None
  /\ testdb.versions (committed (snd r)) = [1%N]
  /\ In (TxExec postgres.insertSQL [1%N]) (log (snd r)).
Proof.
  intros E r. split; [reflexivity|]. split; [reflexivity|].
  split; [reflexivity|]. split; [reflexivity|].
  vm_compute. right; right; left. reflexivity.
Qed.

(** C10, witness: no driver is registered for the scheme of the url. *)
Lemma nil_driver_panics_witness :
  let E := testdb.env testdb.noFaults testdb.files in
  driver_New E "mysql://localhost/app" (committed testdb.empty)
  = (Some (ErrorString "driver not found"), committed testdb.empty)
  /\ migrate.Up E "mysql://localhost/app" "/foobar" testdb.empty
     = (Panicked NilDereference, testdb.empty)
  /\ migrate.Migrate E "mysql://localhost/app" "/foobar" 1 testdb.empty
     = (Panicked NilDereference, testdb.empty)
  /\ migrate.Down E "mysql://localhost/app" "/foobar" testdb.empty
     = (Returned (Some (ErrorString "driver not found")), testdb.empty).
Proof.
  intros E.
  assert (Hnew : driver_New E "mysql://localhost/app"
                            (committed testdb.empty)
                 = (Some (ErrorString "driver not found"),
                    committed testdb.empty)) by reflexivity.
  split; [exact Hnew|].
  destruct (nil_driver_panics E "mysql://localhost/app" "/foobar" 1
              testdb.empty _ _ Hnew) as (Hup & Hmig & Hdown & _).
  split; [exact Hup|]. split; [exact Hmig|exact Hdown].
Defined.

(** ** Interrupts *)

Lemma handleInterrupts_Graceful i :
  migrate.handleInterrupts (migrate.Graceful i)
  = (true, migrate.mkInterrupts true (S (migrate.notified i))).
Proof. reflexivity. Qed.

Lemma handleInterrupts_NonGraceful i :
  migrate.handleInterrupts (migrate.NonGraceful i)
  = (false, migrate.NonGraceful i).
Proof. reflexivity. Qed.

(** Running an operation never registers a channel and never changes the
    interrupt mode. *)
Lemma run_keeps_signals {Store A} (op : World Store -> A * World Store) p :
  signals (snd (run op p)) = signals p
  /\ delivered (snd (run op p)) = delivered p.
Proof.
  unfold run. destruct (op (world p)). split; reflexivity.
Qed.

(** C5: the mode is Graceful and an interrupt has been delivered to the
    process when [Up] starts with two records to apply.  [Up] applies the
    first record and then the second one as well, and returns nil; no
    channel was registered for the signal, so nothing in the operation can
    see it. *)
Theorem Up_does_not_stop_after_interrupt :
  let E := testdb.env testdb.noFaults testdb.filesGood in
  let p :=
    mkProcess testdb.empty (migrate.Graceful migrate.initial) 1 in
  let r := run (migrate.Up E testdb.url "/foobar") p in
  migrate.interrupts (signals p) = true
  /\ delivered p = 1
  /\ fst (ToLastFrom E testdb.filesGood 0%N) = [testdb.up1; testdb.up3]
  /\ fst r = Returned None
  /\ testdb.versions (committed (world (snd r))) = [3%N; 1%N]
  /\ testdb.schema (committed (world (snd r)))
     = [testdb.createYolo; testdb.createLater]
  /\ migrate.notified (signals (snd r)) = 0.
Proof.
  intros E p r. repeat split.
Qed.

(** * Further properties of the two files *)

(** ** [Driver.Migrate] on all its paths *)

Section DriverMigrateMore.
Context {Store MigrationFiles : Type} (E : Env Store MigrationFiles).

Lemma open_transactions_app (l1 l2 : list Event) :
  open_transactions (l1 ++ l2)
  = (open_transactions l1 + open_transactions l2)%Z.
Proof.
  unfold open_transactions. rewrite !filter_app, !length_app. lia.
Qed.

Lemma Migrate_paths d f w :
  exists out events s,
    MigratePath E f w out events s
    /\ postgres.Migrate E d f w = (out, mkWorld s (log w ++ events)).
Proof.
  destruct (db_Begin E (committed w)) as [err|] eqn:Hb.
  { exists (Returned (Some err)), [], (committed w).
    split; [constructor; exact Hb|].
    unfold postgres.Migrate. rewrite Hb, app_nil_r.
    destruct w; reflexivity. }
  destruct (tx_Exec E (postgres.markerSQL f) [file.Version f] (committed w))
    as [tx|err] eqn:Hm.
  2:{ eexists; eexists; eexists. split.
      - eapply path_marker_failed; eassumption.
      - apply Migrate_marker_failure; assumption. }
  destruct (ReadContent E f) as [f' [err|]] eqn:Hr.
  { eexists; eexists; eexists. split.
    - eapply path_read_failed; eassumption.
    - eapply Migrate_read_failure; eassumption. }
  destruct (tx_Exec E (file.Content f') [] tx) as [tx'|[pqErr|s]] eqn:Hx.
  - destruct (tx_Commit E tx') as [err|] eqn:Hc.
    + eexists; eexists; eexists. split.
      * eapply path_commit_failed; eassumption.
      * rewrite (Migrate_script_success E d f w tx f' tx' Hb Hm Hr Hx).
        rewrite Hc. reflexivity.
    + eexists; eexists; eexists. split.
      * eapply path_committed; eassumption.
      * rewrite (Migrate_script_success E d f w tx f' tx' Hb Hm Hr Hx).
        rewrite Hc. reflexivity.
  - eexists; eexists; eexists. split.
    + eapply path_script_failed; eassumption.
    + eapply Migrate_script_pq_failure; eassumption.
  - eexists; eexists; eexists. split.
    + eapply path_panicked; eassumption.
    + eapply Migrate_script_foreign_failure; eassumption.
Qed.

(** X1: whatever goes wrong in [Driver.Migrate] (Begin, the version-table
    statement, the read of the content, the script, the commit, or the
    panic), a call that does not return nil leaves the committed database
    and the answer of [Version()] as they were. *)
Theorem Migrate_changes_database_only_on_nil d f w :
  fst (postgres.Migrate E d f w) <> Returned None ->
  committed (snd (postgres.Migrate E d f w)) = committed w
  /\ postgres.Version E d (snd (postgres.Migrate E d f w))
     = postgres.Version E d w.
Proof.
  intros Hne.
  assert (Hc : committed (snd (postgres.Migrate E d f w)) = committed w).
  { destruct (postgres.Migrate E d f w) as [out w'] eqn:Hm.
    exact (Migrate_not_ok_keeps_committed E d f w out w' Hm Hne). }
  split; [exact Hc|]. unfold postgres.Version. rewrite Hc. reflexivity.
Qed.

(** X2: [Driver.Migrate] returns nil exactly when Begin, the version-table
    statement, the read of the content, the script and the commit all
    succeed; the committed database is then the state the script left. *)
Theorem Migrate_nil_iff_all_steps_succeed d f w :
  (fst (postgres.Migrate E d f w) = Returned None <->
   exists tx f' tx',
     db_Begin E (committed w) = None
     /\ tx_Exec E (postgres.markerSQL f) [file.Version f] (committed w)
        = ExecOk tx
     /\ ReadContent E f = (f', None)
     /\ tx_Exec E (file.Content f') [] tx = ExecOk tx'
     /\ tx_Commit E tx' = None)
  /\ (forall tx f' tx',
         tx_Exec E (postgres.markerSQL f) [file.Version f] (committed w)
         = ExecOk tx ->
         ReadContent E f = (f', None) ->
         tx_Exec E (file.Content f') [] tx = ExecOk tx' ->
         fst (postgres.Migrate E d f w) = Returned None ->
         committed (snd (postgres.Migrate E d f w)) = tx').
Proof.
  split; [split|].
  - destruct (Migrate_paths d f w) as (out & events & s & Hpath & Heq).
    rewrite Heq. cbn [fst]. intros ->. inversion Hpath; subst.
    exists tx, f', s. repeat split; assumption.
  - intros (tx & f' & tx' & Hb & Hm & Hr & Hx & Hc).
    rewrite (Migrate_script_success E d f w tx f' tx' Hb Hm Hr Hx).
    cbn [fst]. rewrite Hc. reflexivity.
  - intros tx f' tx' Hm Hr Hx.
    destruct (db_Begin E (committed w)) as [err|] eqn:Hb.
    { unfold postgres.Migrate. rewrite Hb. cbn [fst]. discriminate. }
    rewrite (Migrate_script_success E d f w tx f' tx' Hb Hm Hr Hx).
    cbn [fst snd committed]. intros H. injection H as Hc. rewrite Hc.
    reflexivity.
Qed.

(** X3: a call of [Driver.Migrate] begins at most one transaction, never
    commits or rolls back more than it began, and never closes the
    database: the number of open transactions stays or grows by one. *)
Theorem Migrate_transaction_accounting d f w :
  exists events,
    log (snd (postgres.Migrate E d f w)) = log w ++ events
    /\ noClose events
    /\ (length (filter is_begin events) <= 1)%nat
    /\ (0 <= open_transactions events <= 1)%Z
    /\ open_transactions (log (snd (postgres.Migrate E d f w)))
       = (open_transactions (log w) + open_transactions events)%Z.
Proof.
  destruct (Migrate_paths d f w) as (out & events & s & Hpath & Heq).
  rewrite Heq. cbn [snd log]. exists events.
  split; [reflexivity|].
  split; [|split; [|split; [|apply open_transactions_app]]].
  - intros r Hin. inversion Hpath; subst; cbn in Hin; intuition discriminate.
  - inversion Hpath; subst; cbn; lia.
  - inversion Hpath; subst; cbn; lia.
Qed.

(** X4: when [Driver.Migrate] returns and the read of the content did not
    fail, every transaction it began is committed or rolled back: the number
    of open transactions is what it was before the call. *)
Theorem Migrate_returns_balanced_when_content_is_read d f w result :
  snd (ReadContent E f) = None ->
  fst (postgres.Migrate E d f w) = Returned result ->
  open_transactions (log (snd (postgres.Migrate E d f w)))
  = open_transactions (log w).
Proof.
  intros Hread Hret.
  destruct (Migrate_paths d f w) as (out & events & s & Hpath & Heq).
  rewrite Heq in *. cbn [fst snd log] in *.
  rewrite open_transactions_app.
  inversion Hpath; subst; cbn; try lia; try discriminate.
  match goal with
  | H : ReadContent E f = (_, Some _) |- _ =>
      rewrite H in Hread; discriminate Hread
  end.
Qed.
End DriverMigrateMore.

Section DecodedMessage.
Context {Store MigrationFiles : Type} (E : Env Store MigrationFiles).

Lemma append_assoc (a b c : string) :
  ((a ++ b) ++ c)%string = (a ++ (b ++ c))%string.
Proof.
  induction a as [|x a IH]; cbn; [reflexivity|]. rewrite IH. reflexivity.
Qed.

Lemma prefix_append (s t : string) : prefix s (s ++ t) = true.
Proof.
  induction s as [|c s IH]; cbn; [destruct t; reflexivity|].
  destruct (ascii_dec c c) as [_|Hne]; [exact IH|].
  exfalso. apply Hne. reflexivity.
Qed.

Lemma prefix_refl (s : string) : prefix s s = true.
Proof.
  induction s as [|c s IH]; cbn; [reflexivity|].
  destruct (ascii_dec c c) as [_|Hne]; [exact IH|].
  exfalso. apply Hne. reflexivity.
Qed.

Lemma positionMessage_extends_plain pqErr lineNo columnNo errorPart :
  exists rest,
    postgres.positionMessage pqErr lineNo columnNo errorPart
    = (postgres.plainMessage pqErr ++ rest)%string.
Proof.
  unfold postgres.positionMessage, postgres.plainMessage.
  eexists. rewrite !append_assoc. reflexivity.
Qed.

(** X5: the error [Driver.Migrate] returns for a script that failed with a
    [*pq.Error] is never that error itself: it is a new error whose text
    starts with severity, code and message, whatever the position says. *)
Theorem Migrate_decoded_error_starts_with_plain_message d f w pqErr :
  db_Begin E (committed w) = None ->
  scriptFailsWith E f w (PqError pqErr) ->
  exists msg,
    fst (postgres.Migrate E d f w) = Returned (Some (ErrorString msg))
    /\ prefix (postgres.plainMessage pqErr) msg = true.
Proof.
  intros Hb (tx & f' & Hm & Hr & Hx).
  rewrite (Migrate_script_pq_failure E d f w tx f' pqErr Hb Hm Hr Hx).
  cbn [fst]. unfold postgres.decodeError.
  destruct (strconv.Atoi (pq.Position pqErr)) as [offset|].
  - destruct (0 <=? offset)%Z.
    + destruct (LineColumnFromOffset E (file.Content f') (offset - 1))
        as [lineNo columnNo].
      eexists. split; [reflexivity|].
      destruct (positionMessage_extends_plain pqErr lineNo columnNo
                  (LinesBeforeAndAfter E (file.Content f') lineNo 5 5 true))
        as [rest ->].
      apply prefix_append.
    + eexists. split; [reflexivity|apply prefix_refl].
  - eexists. split; [reflexivity|apply prefix_refl].
Qed.
End DecodedMessage.

(** ** The entry points on all their paths *)

Section OrchestratorMore.
Context {Store MigrationFiles : Type} (E : Env Store MigrationFiles).

Lemma init_error_nil url path w d files version err w' :
  migrate.initDriverAndReadMigrationFilesAndGetVersion E url path w
  = ((d, files, version, Some err), w') ->
  d = None /\ files = None.
Proof.
  unfold migrate.initDriverAndReadMigrationFilesAndGetVersion.
  destruct (driver_New E url (committed w)) as [[e|] s].
  { intros H. inversion H. split; reflexivity. }
  destruct (ReadMigrationFiles E path
              (FilenameRegex E (postgres.FilenameExtension postgres.mkDriver)))
    as [fs [e|]].
  { intros H. inversion H. split; reflexivity. }
  destruct (postgres.Version E postgres.mkDriver (commit s w))
    as [v [e|]]; intros H; inversion H. split; reflexivity.
Qed.

(** X6: [initDriverAndReadMigrationFilesAndGetVersion] returns a driver
    and the files exactly when it returns no error.  With an error the
    driver and the files are nil and the version is 0; the driver has then
    been closed once if [driver.New] had succeeded, and was never opened
    otherwise.  Without an error nothing is closed and the version is the
    one [Version()] reports. *)
Theorem init_result_consistent url path w :
  let '((d, files, version, err), w') :=
    migrate.initDriverAndReadMigrationFilesAndGetVersion E url path w in
  committed w' = snd (driver_New E url (committed w))
  /\ match err with
     | None =>
         d = Some postgres.mkDriver
         /\ files <> None
         /\ postgres.Version E postgres.mkDriver w' = (version, None)
         /\ log w' = log w
     | Some _ =>
         d = None /\ files = None /\ version = 0%N
         /\ log w'
            = match fst (driver_New E url (committed w)) with
              | None =>
                  log w
                  ++ [DbClose
                        (db_Close E (snd (driver_New E url (committed w))))]
              | Some _ => log w
              end
     end.
Proof.
  unfold migrate.initDriverAndReadMigrationFilesAndGetVersion.
  destruct (driver_New E url (committed w)) as [[err|] s]; cbn [fst snd].
  { repeat split. }
  destruct (ReadMigrationFiles E path
              (FilenameRegex E (postgres.FilenameExtension postgres.mkDriver)))
    as [files [err|]].
  { repeat split. }
  destruct (postgres.Version E postgres.mkDriver (commit s w))
    as [version [err|]] eqn:Hv.
  { repeat split. }
  split; [reflexivity|]. split; [reflexivity|].
  split; [discriminate|]. split; [exact Hv|reflexivity].
Qed.

(** X7: whichever step of the initialization fails ([driver.New], the read
    of the migration files, or [Version()]), [Up], [Migrate] and [Redo]
    panic on the nil driver, while [Down] and [Reset] return the error. *)
Theorem init_failure_outcomes url path relativeN w d files version err w' :
  migrate.initDriverAndReadMigrationFilesAndGetVersion E url path w
  = ((d, files, version, Some err), w') ->
  migrate.Up E url path w = (Panicked NilDereference, w')
  /\ migrate.Migrate E url path relativeN w = (Panicked NilDereference, w')
  /\ migrate.Redo E url path w = (Panicked NilDereference, w')
  /\ migrate.Down E url path w = (Returned (Some err), w')
  /\ migrate.Reset E url path w = (Returned (Some err), w').
Proof.
  intros Hinit.
  destruct (init_error_nil url path w d files version err w' Hinit)
    as [-> ->].
  assert (Hm : forall n, migrate.Migrate E url path n w
                         = (Panicked NilDereference, w')).
  { intros n. unfold migrate.Migrate. rewrite Hinit. reflexivity. }
  assert (Hd : migrate.Down E url path w = (Returned (Some err), w')).
  { unfold migrate.Down. rewrite Hinit. reflexivity. }
  split; [unfold migrate.Up; rewrite Hinit; reflexivity|].
  split; [apply Hm|].
  split; [unfold migrate.Redo; rewrite Hm; reflexivity|].
  split; [exact Hd|].
  unfold migrate.Reset. rewrite Hd. reflexivity.
Qed.

(** X8: when every record of [ToLastFrom] succeeds, one after the other,
    [Up] returns nil, the committed database is the one the last record
    left, and the driver is closed afterwards.  With no record to apply
    this is the database as it was. *)
Theorem Up_applies_all url path w d files version w0 w1 :
  migrate.initDriverAndReadMigrationFilesAndGetVersion E url path w
  = ((Some d, Some files, version, None), w0) ->
  AppliedInOrder E d (fst (ToLastFrom E files version)) w0 w1 ->
  fst (migrate.Up E url path w) = Returned None
  /\ committed (snd (migrate.Up E url path w)) = committed w1
  /\ log (snd (migrate.Up E url path w))
     = log w1 ++ [DbClose (db_Close E (committed w1))].
Proof.
  intros Hinit Happlied. unfold migrate.Up. rewrite Hinit.
  destruct (ToLastFrom E files version) as [l e]. cbn [fst] in Happlied.
  rewrite (applyEach_all E d l w0 w1 Happlied).
  repeat split.
Qed.

(** X9: [Down] applies the records of [ToFirstFrom] in order.  When the
    records [applied] have succeeded and [Migrate] returns an error on the
    next one, [Down] returns that error and runs none of the remaining
    records; what was rolled back before the failure stays rolled back, and
    the driver is left open. *)
Theorem Down_stops_at_first_failure
        url path w d files version w0 applied failing remaining w1 err w2 :
  migrate.initDriverAndReadMigrationFilesAndGetVersion E url path w
  = ((Some d, Some files, version, None), w0) ->
  fst (ToFirstFrom E files version) = applied ++ failing :: remaining ->
  AppliedInOrder E d applied w0 w1 ->
  postgres.Migrate E d failing w1 = (Returned (Some err), w2) ->
  migrate.Down E url path w = (Returned (Some err), w2)
  /\ committed w2 = committed w1.
Proof.
  intros Hinit Hto Happlied Hfail. split.
  - unfold migrate.Down. rewrite Hinit.
    destruct (ToFirstFrom E files version) as [l e]. cbn [fst] in Hto.
    subst l.
    exact (applyEach_stops E d applied failing remaining w0 w1 err w2
             Happlied Hfail).
  - apply (Migrate_not_ok_keeps_committed E d failing w1 _ w2 Hfail).
    discriminate.
Qed.

(** X10: [Migrate] with a relative number applies nothing when [From]
    returns an error, when the number is 0, or when [From] returns no
    record: it returns what [From] returned as error (nil in the last two
    cases unless [From] failed), begins no transaction, leaves the committed
    database as it was and closes the driver. *)
Theorem Migrate_applies_nothing
        url path relativeN w d files version w0 records ferr :
  migrate.initDriverAndReadMigrationFilesAndGetVersion E url path w
  = ((Some d, Some files, version, None), w0) ->
  From E files version relativeN = (records, ferr) ->
  ferr <> None \/ relativeN = 0%Z \/ records = [] ->
  migrate.Migrate E url path relativeN w
  = (Returned ferr,
     mkWorld (committed w0)
             (log w0 ++ [DbClose (db_Close E (committed w0))])).
Proof.
  intros Hinit Hfrom Hcase. unfold migrate.Migrate.
  rewrite Hinit, Hfrom.
  destruct ferr as [e|]; [reflexivity|].
  destruct Hcase as [Hc | [-> | ->]]; [congruence| |reflexivity].
  rewrite andb_false_r. reflexivity.
Qed.


(** X12: when [Down] stops at a failing record, [Reset] returns that error
    and does not go on to [Up]: its result and the world are those of
    [Down], with the driver left open. *)
Theorem Reset_stops_when_Down_fails
        url path w d files version w0 applied failing remaining w1 err w2 :
  migrate.initDriverAndReadMigrationFilesAndGetVersion E url path w
  = ((Some d, Some files, version, None), w0) ->
  fst (ToFirstFrom E files version) = applied ++ failing :: remaining ->
  AppliedInOrder E d applied w0 w1 ->
  postgres.Migrate E d failing w1 = (Returned (Some err), w2) ->
  migrate.Reset E url path w = (Returned (Some err), w2)
  /\ committed w2 = committed w1.
Proof.
  intros Hinit Hto Happlied Hfail.
  assert (Hc : committed w2 = committed w1).
  { apply (Migrate_not_ok_keeps_committed E d failing w1 _ w2 Hfail).
    discriminate. }
  split; [|exact Hc].
  unfold migrate.Reset, migrate.Down. rewrite Hinit.
  destruct (ToFirstFrom E files version) as [l e]. cbn [fst] in Hto.
  subst l.
  rewrite (applyEach_stops E d applied failing remaining w0 w1 err w2
             Happlied Hfail).
  reflexivity.
Qed.

(** X13: once the driver is initialized, [Up] and [Migrate] close it
    exactly once, as the last thing they do, also when a record fails or
    panics. *)
Theorem Up_and_Migrate_close_once
        url path relativeN w d files version w0 :
  migrate.initDriverAndReadMigrationFilesAndGetVersion E url path w
  = ((Some d, Some files, version, None), w0) ->
  (exists events r,
      log (snd (migrate.Up E url path w)) = log w0 ++ events ++ [DbClose r]
      /\ noClose events)
  /\ (exists events r,
         log (snd (migrate.Migrate E url path relativeN w))
         = log w0 ++ events ++ [DbClose r]
         /\ noClose events).
Proof.
  intros Hinit.
  assert (Hdefer : forall body : Outcome (option error) * World Store,
             (exists events,
                 log (snd body) = log w0 ++ events /\ noClose events) ->
             exists events r,
               log (snd (migrate.deferClose E d body))
               = log w0 ++ events ++ [DbClose r]
               /\ noClose events).
  { intros [out wb] (events & Hlog & Hno). cbn [snd] in Hlog.
    exists events, (db_Close E (committed wb)).
    unfold migrate.deferClose, migrate.closeDiscard, postgres.Close, emit.
    cbn [snd log]. rewrite Hlog, app_assoc. split; [reflexivity|exact Hno]. }
  assert (Hnone : forall out : Outcome (option error),
             exists events,
               log (snd (out, w0)) = log w0 ++ events /\ noClose events).
  { intros out. exists []. cbn [snd]. rewrite app_nil_r.
    split; [reflexivity|]. intros r []. }
  split.
  - unfold migrate.Up. rewrite Hinit. apply Hdefer.
    destruct (ToLastFrom E files version) as [l e]. apply applyEach_log.
  - unfold migrate.Migrate. rewrite Hinit. apply Hdefer.
    destruct (From E files version relativeN) as [l [e|]];
      [apply Hnone|].
    destruct (negb (length l =? 0)%nat && negb (relativeN =? 0)%Z);
      [apply applyEach_log|apply Hnone].
Qed.

(** X14: the entry point [Version] opens a driver and never closes it; it
    begins no transaction either.  When [driver.New] fails it returns 0 and
    the error. *)
Theorem Version_leaves_driver_open url path w :
  log (snd (migrate.Version E url path w)) = log w
  /\ (forall err,
         fst (driver_New E url (committed w)) = Some err ->
         fst (migrate.Version E url path w) = (0%N, Some err)).
Proof.
  unfold migrate.Version.
  destruct (driver_New E url (committed w)) as [[e|] s]; cbn [fst snd].
  - split; [reflexivity|]. intros err H. injection H as ->. reflexivity.
  - split; [reflexivity|]. intros err H. discriminate H.
Qed.
End OrchestratorMore.

(** ** [Create] *)

Section CreateFacts.
Context {Store MigrationFiles Disk : Type}
        (E : Env Store MigrationFiles) (C : CreateEnv Disk MigrationFiles).

Lemma length_Repeat_char (c : ascii) (k : nat) :
  String.length (strings.Repeat (String c EmptyString) k) = k.
Proof.
  induction k as [|k IH]; cbn; [reflexivity|]. rewrite IH. reflexivity.
Qed.

Lemma versionString_shape version :
  (String.length (migrate.versionString version) mod 4 = 0)%nat
  /\ (exists k,
         (k < 4)%nat
         /\ migrate.versionString version
            = (strings.Repeat "0" k ++ strconv.FormatUint version)%string)
  /\ ((String.length (strconv.FormatUint version) mod 4 = 0)%nat ->
      migrate.versionString version = strconv.FormatUint version).
Proof.
  unfold migrate.versionString.
  set (s := strconv.FormatUint version).
  set (n := String.length s).
  pose proof (Nat.mod_upper_bound n 4 ltac:(lia)) as Hlt.
  pose proof (Nat.div_mod_eq n 4) as Hdm.
  destruct (n mod 4 =? 0)%nat eqn:Hz; cbn [negb].
  - apply Nat.eqb_eq in Hz. split; [exact Hz|]. split.
    + exists 0%nat. split; [lia|reflexivity].
    + reflexivity.
  - apply Nat.eqb_neq in Hz. split; [|split].
    + rewrite length_append, length_Repeat_char. fold n.
      replace (4 - n mod 4 + n)%nat with ((n / 4 + 1) * 4)%nat by lia.
      apply Nat.Div0.mod_mul.
    + exists (4 - n mod 4)%nat. split; [lia|reflexivity].
    + intros H. contradiction.
Qed.

(** X16: the version string of a new migration has a length that is a
    multiple of 4: it is the decimal form of the version with fewer than 4
    zeros in front, and with none when the decimal form already has such a
    length. *)
Theorem versionString_padded version :
  (String.length (migrate.versionString version) mod 4 = 0)%nat
  /\ (exists k,
         (k < 4)%nat
         /\ migrate.versionString version
            = (strings.Repeat "0" k ++ strconv.FormatUint version)%string)
  /\ ((String.length (strconv.FormatUint version) mod 4 = 0)%nat ->
      migrate.versionString version = strconv.FormatUint version).
Proof. exact (versionString_shape version). Qed.

(** X17: the version of a new migration is 1 when there is no migration
    file, and one more than the version of the last file otherwise; after
    the greatest 64-bit version it wraps around to 0. *)
Theorem nextVersion_follows_last files :
  (versionsOf C files = [] -> migrate.nextVersion C files = 1%N)
  /\ (forall before v,
         versionsOf C files = before ++ [v] ->
         (v < 2 ^ 64 - 1)%N ->
         migrate.nextVersion C files = (v + 1)%N)
  /\ (forall before,
         versionsOf C files = before ++ [(2 ^ 64 - 1)%N] ->
         migrate.nextVersion C files = 0%N).
Proof.
  unfold migrate.nextVersion. split; [|split].
  - intros ->. reflexivity.
  - intros before v -> Hv. rewrite last_last.
    apply N.mod_small. lia.
  - intros before ->. rewrite last_last. reflexivity.
Qed.

Lemma Replace_no_space (s : string) :
  forall c, In c (list_ascii_of_string (strings.Replace s " " "_")) ->
            c <> " "%char.
Proof.
  induction s as [|x s IH]; cbn; intros c Hin; [contradiction|].
  destruct (Ascii.eqb x " ") eqn:Hx; cbn in Hin.
  - destruct Hin as [<-|Hin]; [discriminate|exact (IH c Hin)].
  - destruct Hin as [<-|Hin]; [|exact (IH c Hin)].
    apply Ascii.eqb_neq. exact Hx.
Qed.

(** X18: when [Create] returns a migration file, it returns no error, and
    the two files are named [<version>_<name>.up.sql] and
    [<version>_<name>.down.sql] in the migrations path, where [<version>]
    is the padded string of the new version and [<name>] is the given name
    with every space replaced by an underscore; both are empty, and the
    version is the one that follows the files read. *)
Theorem Create_file_names url path name w disk mfile :
  fst (fst (migrate.Create E C url path name w disk)) = Some mfile ->
  snd (fst (migrate.Create E C url path name w disk)) = None
  /\ exists files versionStr name',
       ReadMigrationFiles E path (FilenameRegex E "sql") = (files, None)
       /\ MigrationFile.Version mfile = migrate.nextVersion C files
       /\ versionStr = migrate.versionString (MigrationFile.Version mfile)
       /\ (String.length versionStr mod 4 = 0)%nat
       /\ name' = strings.Replace name " " "_"
       /\ (forall c, In c (list_ascii_of_string name') -> c <> " "%char)
       /\ MigrationFile.UpFile mfile
          = file.mkFile path (versionStr ++ "_" ++ name' ++ ".up.sql")
                        0%N name' EmptyString direction.Up
       /\ MigrationFile.DownFile mfile
          = file.mkFile path (versionStr ++ "_" ++ name' ++ ".down.sql")
                        0%N name' EmptyString direction.Down.
Proof.
  unfold migrate.Create.
  destruct (driver_New E url (committed w)) as [[err|] s];
    [cbn; discriminate|].
  change (postgres.FilenameExtension postgres.mkDriver) with "sql".
  destruct (ReadMigrationFiles E path (FilenameRegex E "sql"))
    as [files [err|]]; [cbn; discriminate|].
  cbn [MigrationFile.UpFile MigrationFile.DownFile file.Path file.FileName
       file.Content].
  destruct (ioutil_WriteFile C _ _ disk) as [[err|] disk1];
    [cbn; discriminate|].
  destruct (ioutil_WriteFile C _ _ disk1) as [[err|] disk2];
    [cbn; discriminate|].
  cbn [fst snd]. intros H. injection H as <-.
  split; [reflexivity|].
  exists files, (migrate.versionString (migrate.nextVersion C files)),
    (strings.Replace name " " "_").
  cbn [MigrationFile.Version MigrationFile.UpFile MigrationFile.DownFile].
  split; [reflexivity|]. split; [reflexivity|]. split; [reflexivity|].
  split; [apply versionString_shape|]. split; [reflexivity|].
  split; [apply Replace_no_space|]. split; reflexivity.
Qed.

(** X19: when [driver.New] or the read of the migration files fails,
    [Create] returns nil and that error and writes nothing.  The driver it
    opened is not closed. *)
Theorem Create_failure_before_writing url path name w disk err :
  fst (driver_New E url (committed w)) = Some err
  \/ (fst (driver_New E url (committed w)) = None
      /\ snd (ReadMigrationFiles E path (FilenameRegex E "sql")) = Some err) ->
  fst (migrate.Create E C url path name w disk) = (None, Some err)
  /\ snd (snd (migrate.Create E C url path name w disk)) = disk
  /\ log (fst (snd (migrate.Create E C url path name w disk))) = log w.
Proof.
  unfold migrate.Create.
  change (postgres.FilenameExtension postgres.mkDriver) with "sql".
  destruct (driver_New E url (committed w)) as [[e|] s]; cbn [fst snd].
  - intros [H | [H _]]; [|discriminate H]. injection H as ->.
    repeat split.
  - intros [H | [_ H]]; [discriminate H|].
    destruct (ReadMigrationFiles E path (FilenameRegex E "sql"))
      as [files [e|]]; cbn [snd] in H; [|discriminate H].
    injection H as ->. repeat split.
Qed.

(** X20: [Create] writes the Up file first and the Down file second.  When
    the first write fails it returns the error and does not attempt the
    second; when the second write fails it returns nil and the error, and
    the disk is the one the two writes left: the Up file that was written
    is not taken back. *)
Theorem Create_write_failure url path name w disk files :
  fst (driver_New E url (committed w)) = None ->
  ReadMigrationFiles E path (FilenameRegex E "sql") = (files, None) ->
  let versionStr := migrate.versionString (migrate.nextVersion C files) in
  let name' := strings.Replace name " " "_" in
  let upPath :=
    path_Join C path (versionStr ++ "_" ++ name' ++ ".up.sql")%string in
  let downPath :=
    path_Join C path (versionStr ++ "_" ++ name' ++ ".down.sql")%string in
  (forall err disk1,
      ioutil_WriteFile C upPath EmptyString disk = (Some err, disk1) ->
      fst (migrate.Create E C url path name w disk) = (None, Some err)
      /\ snd (snd (migrate.Create E C url path name w disk)) = disk1)
  /\ (forall err disk1 disk2,
         ioutil_WriteFile C upPath EmptyString disk = (None, disk1) ->
         ioutil_WriteFile C downPath EmptyString disk1 = (Some err, disk2) ->
         fst (migrate.Create E C url path name w disk) = (None, Some err)
         /\ snd (snd (migrate.Create E C url path name w disk)) = disk2).
Proof.
  intros Hnew Hread versionStr name' upPath downPath.
  unfold migrate.Create.
  change (postgres.FilenameExtension postgres.mkDriver) with "sql".
  destruct (driver_New E url (committed w)) as [[e|] s];
    cbn [fst] in Hnew; [discriminate Hnew|].
  rewrite Hread.
  cbn [MigrationFile.UpFile MigrationFile.DownFile file.Path file.FileName
       file.Content].
  change (path_Join C path
            (migrate.filenamef
               (migrate.versionString (migrate.nextVersion C files))
               (strings.Replace name " " "_") "up" "sql"))
    with upPath.
  change (path_Join C path
            (migrate.filenamef
               (migrate.versionString (migrate.nextVersion C files))
               (strings.Replace name " " "_") "down" "sql"))
    with downPath.
  split.
  - intros err disk1 Hup. rewrite Hup. split; reflexivity.
  - intros err disk1 disk2 Hup Hdown. rewrite Hup, Hdown.
    split; reflexivity.
Qed.
End CreateFacts.

(** ** The further properties on the example database *)

(** X1, witness: version 1 is already in the version table, the insert
    fails. *)
Lemma Migrate_changes_database_only_on_nil_witness :
  let E := testdb.env testdb.noFaults testdb.files in
  let w := mkWorld (testdb.mkStore [1%N] [testdb.createYolo]) [] in
  fst (postgres.Migrate E postgres.mkDriver testdb.up1 w) <> Returned None
  /\ committed (snd (postgres.Migrate E postgres.mkDriver testdb.up1 w))
     = committed w.
Proof.
  intros E w.
  assert (H : fst (postgres.Migrate E postgres.mkDriver testdb.up1 w)
              <> Returned None).
  { intros H. vm_compute in H. discriminate H. }
  split; [exact H|].
  exact (proj1 (Migrate_changes_database_only_on_nil
                  E postgres.mkDriver testdb.up1 w H)).
Defined.

(** X4, witness: the first file of the test applies and commits. *)
Lemma Migrate_returns_balanced_witness :
  let E := testdb.env testdb.noFaults testdb.files in
  let r := postgres.Migrate E postgres.mkDriver testdb.up1 testdb.empty in
  snd (ReadContent E testdb.up1) = None
  /\ fst r = Returned None
  /\ open_transactions (log (snd r)) = open_transactions (log testdb.empty).
Proof.
  intros E r. split; [reflexivity|]. split; [reflexivity|].
  exact (Migrate_returns_balanced_when_content_is_read
           E postgres.mkDriver testdb.up1 testdb.empty None
           eq_refl eq_refl).
Defined.

(** X5, witness: the position 500 lies behind the script; the message still
    starts with severity, code and message. *)
Lemma Migrate_decoded_error_witness :
  let E := testdb.env testdb.rejectFarAway testdb.files in
  let pqErr :=
    pq.mkError "ERROR" "42601" "syntax error at or near THIS" "500" in
  db_Begin E (committed testdb.empty) = None
  /\ scriptFailsWith E testdb.up2 testdb.empty (PqError pqErr)
  /\ exists msg,
       fst (postgres.Migrate E postgres.mkDriver testdb.up2 testdb.empty)
       = Returned (Some (ErrorString msg))
       /\ prefix "ERROR 42601: syntax error at or near THIS" msg = true.
Proof.
  intros E pqErr.
  assert (Hs : scriptFailsWith E testdb.up2 testdb.empty (PqError pqErr)).
  { eexists. eexists. split; [reflexivity|]. split; reflexivity. }
  split; [reflexivity|]. split; [exact Hs|].
  exact (Migrate_decoded_error_starts_with_plain_message
           E postgres.mkDriver testdb.up2 testdb.empty pqErr eq_refl Hs).
Defined.

(** X7, witness: the migrations path cannot be read; the driver that was
    opened is closed, and [Up] panics. *)
Lemma init_failure_outcomes_witness :
  let E := testdb.env testdb.noFaults testdb.files in
  let err := ErrorString "no such file or directory" in
  let w' := mkWorld (committed testdb.empty) [DbClose None] in
  migrate.initDriverAndReadMigrationFilesAndGetVersion
    E testdb.url "/nowhere" testdb.empty
  = ((None, None, 0%N, Some err), w')
  /\ migrate.Up E testdb.url "/nowhere" testdb.empty
     = (Panicked NilDereference, w')
  /\ migrate.Reset E testdb.url "/nowhere" testdb.empty
     = (Returned (Some err), w').
Proof.
  intros E err w'.
  assert (Hinit : migrate.initDriverAndReadMigrationFilesAndGetVersion
                    E testdb.url "/nowhere" testdb.empty
                  = ((None, None, 0%N, Some err), w')) by reflexivity.
  split; [exact Hinit|].
  destruct (init_failure_outcomes E testdb.url "/nowhere" 1 testdb.empty
              _ _ _ _ _ Hinit) as (Hup & _ & _ & _ & Hreset).
  split; [exact Hup|exact Hreset].
Defined.

(** X8, witness: versions 1 and 3 both apply. *)
Lemma Up_applies_all_witness :
  let E := testdb.env testdb.noFaults testdb.filesGood in
  let d := postgres.mkDriver in
  let w1 := snd (migrate.applyEach E d [testdb.up1; testdb.up3]
                                   testdb.empty) in
  migrate.initDriverAndReadMigrationFilesAndGetVersion
    E testdb.url "/foobar" testdb.empty
  = ((Some d, Some testdb.filesGood, 0%N, None), testdb.empty)
  /\ AppliedInOrder E d (fst (ToLastFrom E testdb.filesGood 0%N))
                    testdb.empty w1
  /\ fst (migrate.Up E testdb.url "/foobar" testdb.empty) = Returned None
  /\ testdb.versions
       (committed (snd (migrate.Up E testdb.url "/foobar" testdb.empty)))
     = [3%N; 1%N].
Proof.
  intros E d w1.
  assert (Hinit : migrate.initDriverAndReadMigrationFilesAndGetVersion
                    E testdb.url "/foobar" testdb.empty
                  = ((Some d, Some testdb.filesGood, 0%N, None),
                     testdb.empty)) by reflexivity.
  assert (Happlied : AppliedInOrder E d
                       (fst (ToLastFrom E testdb.filesGood 0%N))
                       testdb.empty w1).
  { eapply applied_cons; [reflexivity|].
    eapply applied_cons; [reflexivity|]. apply applied_nil. }
  split; [exact Hinit|]. split; [exact Happlied|].
  destruct (Up_applies_all E testdb.url "/foobar" testdb.empty d
              testdb.filesGood 0%N testdb.empty w1 Hinit Happlied)
    as (Hout & Hc & _).
  split; [exact Hout|]. rewrite Hc. reflexivity.
Defined.

(** X9, witness: versions 1 and 3 are applied, the Down
    script of version 3 runs, the one of version 1 is rejected. *)
Lemma Down_stops_at_first_failure_witness :
  let E := testdb.env testdb.rejectDrop testdb.filesPairs in
  let d := postgres.mkDriver in
  let w1 := snd (postgres.Migrate E d testdb.down3 testdb.applied13) in
  let w2 := snd (postgres.Migrate E d testdb.down1 w1) in
  migrate.initDriverAndReadMigrationFilesAndGetVersion
    E testdb.url "/foobar" testdb.applied13
  = ((Some d, Some testdb.filesPairs, 3%N, None), testdb.applied13)
  /\ fst (ToFirstFrom E testdb.filesPairs 3%N)
     = [testdb.down3] ++ testdb.down1 :: []
  /\ AppliedInOrder E d [testdb.down3] testdb.applied13 w1
  /\ returnsError (fst (migrate.Down E testdb.url "/foobar"
                                     testdb.applied13))
  /\ snd (migrate.Down E testdb.url "/foobar" testdb.applied13) = w2
  /\ testdb.versions (committed w2) = [1%N].
Proof.
  intros E d w1 w2.
  assert (Hinit : migrate.initDriverAndReadMigrationFilesAndGetVersion
                    E testdb.url "/foobar" testdb.applied13
                  = ((Some d, Some testdb.filesPairs, 3%N, None),
                     testdb.applied13)) by reflexivity.
  assert (Hto : fst (ToFirstFrom E testdb.filesPairs 3%N)
                = [testdb.down3] ++ testdb.down1 :: []) by reflexivity.
  assert (Happlied : AppliedInOrder E d [testdb.down3] testdb.applied13 w1).
  { eapply applied_cons; [reflexivity|apply applied_nil]. }
  split; [exact Hinit|]. split; [exact Hto|]. split; [exact Happlied|].
  destruct (Down_stops_at_first_failure E testdb.url "/foobar"
              testdb.applied13 d testdb.filesPairs 3%N testdb.applied13
              [testdb.down3] testdb.down1 [] w1 _ w2
              Hinit Hto Happlied eq_refl) as (Hdown & Hc).
  rewrite Hdown. cbn [fst snd].
  split; [eexists; reflexivity|]. split; [reflexivity|].
  rewrite Hc. reflexivity.
Defined.

(** X12, witness: the same scenario under [Reset]. *)
Lemma Reset_stops_when_Down_fails_witness :
  let E := testdb.env testdb.rejectDrop testdb.filesPairs in
  let d := postgres.mkDriver in
  let w1 := snd (postgres.Migrate E d testdb.down3 testdb.applied13) in
  let w2 := snd (postgres.Migrate E d testdb.down1 w1) in
  AppliedInOrder E d [testdb.down3] testdb.applied13 w1
  /\ returnsError (fst (postgres.Migrate E d testdb.down1 w1))
  /\ snd (migrate.Reset E testdb.url "/foobar" testdb.applied13) = w2
  /\ returnsError (fst (migrate.Reset E testdb.url "/foobar"
                                      testdb.applied13)).
Proof.
  intros E d w1 w2.
  assert (Happlied : AppliedInOrder E d [testdb.down3] testdb.applied13 w1).
  { eapply applied_cons; [reflexivity|apply applied_nil]. }
  split; [exact Happlied|]. split; [eexists; reflexivity|].
  destruct (Reset_stops_when_Down_fails E testdb.url "/foobar"
              testdb.applied13 d testdb.filesPairs 3%N testdb.applied13
              [testdb.down3] testdb.down1 [] w1 _ w2
              eq_refl eq_refl Happlied eq_refl) as (Hreset & _).
  rewrite Hreset. cbn [fst snd]. split; [reflexivity|eexists; reflexivity].
Defined.

(** X10, witness: [Migrate] with 0. *)
Lemma Migrate_applies_nothing_witness :
  let E := testdb.env testdb.noFaults testdb.files in
  migrate.initDriverAndReadMigrationFilesAndGetVersion
    E testdb.url "/foobar" testdb.empty
  = ((Some postgres.mkDriver, Some testdb.files, 0%N, None), testdb.empty)
  /\ From E testdb.files 0%N 0 = ([], None)
  /\ migrate.Migrate E testdb.url "/foobar" 0 testdb.empty
     = (Returned None, mkWorld (committed testdb.empty) [DbClose None]).
Proof.
  intros E. split; [reflexivity|]. split; [reflexivity|].
  exact (Migrate_applies_nothing E testdb.url "/foobar" 0 testdb.empty
           postgres.mkDriver testdb.files 0%N testdb.empty [] None
           eq_refl eq_refl (or_intror (or_introl eq_refl))).
Defined.


(** X13, witness: both records apply and the driver is closed once. *)
Lemma Up_and_Migrate_close_once_witness :
  let E := testdb.env testdb.noFaults testdb.filesGood in
  migrate.initDriverAndReadMigrationFilesAndGetVersion
    E testdb.url "/foobar" testdb.empty
  = ((Some postgres.mkDriver, Some testdb.filesGood, 0%N, None),
     testdb.empty)
  /\ exists events r,
       log (snd (migrate.Up E testdb.url "/foobar" testdb.empty))
       = log testdb.empty ++ events ++ [DbClose r]
       /\ noClose events.
Proof.
  intros E. split; [reflexivity|].
  exact (proj1 (Up_and_Migrate_close_once E testdb.url "/foobar" 1
                  testdb.empty postgres.mkDriver testdb.filesGood 0%N
                  testdb.empty eq_refl)).
Defined.

(** X15, witness: [Down] from versions 1 and 3. *)
Lemma Down_does_not_close_witness :
  let E := testdb.env testdb.noFaults testdb.filesPairs in
  migrate.initDriverAndReadMigrationFilesAndGetVersion
    E testdb.url "/foobar" testdb.applied13
  = ((Some postgres.mkDriver, Some testdb.filesPairs, 3%N, None),
     testdb.applied13)
  /\ exists events,
       log (snd (migrate.Down E testdb.url "/foobar" testdb.applied13))
       = log testdb.applied13 ++ events
       /\ noClose events.
Proof.
  intros E. split; [reflexivity|].
  exact (Down_does_not_close E testdb.url "/foobar" testdb.applied13
           postgres.mkDriver testdb.filesPairs 3%N testdb.applied13
           eq_refl).
Defined.

(** X18, witness: after the files of the test the next migration is
    version 3. *)
Lemma Create_file_names_witness :
  let E := testdb.env testdb.noFaults testdb.files in
  let C := testdb.createEnv [] in
  let r := migrate.Create E C testdb.url "/foobar" "add users table"
                          testdb.empty [] in
  exists mfile,
    fst (fst r) = Some mfile
    /\ snd (fst r) = None
    /\ file.FileName (MigrationFile.UpFile mfile)
       = "0003_add_users_table.up.sql"
    /\ file.FileName (MigrationFile.DownFile mfile)
       = "0003_add_users_table.down.sql".
Proof.
  intros E C r.
  assert (H : exists mfile, fst (fst r) = Some mfile)
    by (eexists; reflexivity).
  destruct H as [mfile H]. exists mfile. split; [exact H|].
  destruct (Create_file_names E C testdb.url "/foobar" "add users table"
              testdb.empty [] mfile H) as (Hnone & _).
  split; [exact Hnone|].
  vm_compute in H. injection H as <-. split; reflexivity.
Defined.

(** X19, witness: no driver is registered for the scheme of the url. *)
Lemma Create_failure_before_writing_witness :
  let E := testdb.env testdb.noFaults testdb.files in
  let C := testdb.createEnv [] in
  fst (driver_New E "mysql://localhost/app" (committed testdb.empty))
  = Some (ErrorString "driver not found")
  /\ fst (migrate.Create E C "mysql://localhost/app" "/foobar" "x"
                         testdb.empty [])
     = (None, Some (ErrorString "driver not found")).
Proof.
  intros E C. split; [reflexivity|].
  exact (proj1 (Create_failure_before_writing E C "mysql://localhost/app"
                  "/foobar" "x" testdb.empty [] _ (or_introl eq_refl))).
Defined.

(** X20, witness: the Down file cannot be written; the Up file is on the
    disk. *)
Lemma Create_write_failure_witness :
  let E := testdb.env testdb.noFaults testdb.files in
  let C := testdb.createEnv ["/foobar/0003_x.down.sql"] in
  fst (driver_New E testdb.url (committed testdb.empty)) = None
  /\ ReadMigrationFiles E "/foobar" (FilenameRegex E "sql")
     = (testdb.files, None)
  /\ fst (migrate.Create E C testdb.url "/foobar" "x" testdb.empty [])
     = (None, Some (ErrorString "permission denied"))
  /\ snd (snd (migrate.Create E C testdb.url "/foobar" "x" testdb.empty []))
     = [("/foobar/0003_x.up.sql", EmptyString)].
Proof.
  intros E C. split; [reflexivity|]. split; [reflexivity|].
  exact (proj2 (Create_write_failure E C testdb.url "/foobar" "x"
                  testdb.empty [] testdb.files eq_refl eq_refl)
           (ErrorString "permission denied")
           [("/foobar/0003_x.up.sql", EmptyString)]
           [("/foobar/0003_x.up.sql", EmptyString)]
           eq_refl eq_refl).
Defined.
